(** * dataio-helpers: the volumetric export-plan resolver

    A shallow embedding of [export_helpers.py]: the prefix builder
    [_define_prefixes], the output resolver [_define_output], the variable
    resolver [_define_variables], the selector resolver [_define_selectors],
    the table loader [get_volumetrics] and the part of
    [RmsInplaceVolumes.__post_init__] that composes them.

    The job arguments handed over by the host are dynamically typed, so the
    functions are embedded over a small universe of Python values, and every
    subscript, attribute access and iteration of the source is written with
    the exception it raises when the value has the wrong shape.  Exceptions
    and the warnings written to the logger are threaded by a small monad.

    Modelling boundary.  Strings are byte strings and [lower]/[upper] change
    the ASCII letters only: they are [str.lower] and [str.upper] on ASCII
    strings, and every theorem that names a case conversion is stated for
    ASCII strings.  Floats are not part of the value universe.
    Mapping keys of the job arguments are strings.  [logger.debug] trace
    lines are not recorded: they do not take part in any result; the
    [logger.warning] records are. *)

From Stdlib Require Import List String Ascii ZArith Bool Lia.
Import ListNotations.
Set Warnings "-register-all".
Local Open Scope string_scope.
Local Open Scope Z_scope.

(* ------------------------------------------------------------------ *)
(** ** Python values *)

Module Py.

Inductive pyval : Type :=
| PNone
| PBool (b : bool)
| PInt (z : Z)
| PStr (s : string)
| PList (l : list pyval)
| PDict (d : list (string * pyval)).

Inductive exn : Type :=
| KeyError
| IndexError
| TypeError
| AttributeError.

Definition exn_eqb (a b : exn) : bool :=
  match a, b with
  | KeyError, KeyError | IndexError, IndexError
  | TypeError, TypeError | AttributeError, AttributeError => true
  | _, _ => false
  end.

Inductive result (A : Type) : Type :=
| Ok (a : A)
| Raise (e : exn).
Arguments Ok {A} a.
Arguments Raise {A} e.

(** A record of the logger, as [logging] keeps it: the format string and its
    arguments, not the formatted text. *)
Record logrec : Type := Warning { msg : string; args : list pyval }.

(** *** Mappings with insertion order

    A Python [dict] keeps its keys in insertion order; assigning to a key
    that is present replaces the value in place. *)

Section Dict.
Context {K V : Type} (keq : K -> K -> bool).

Fixpoint dict_get (k : K) (d : list (K * V)) : option V :=
  match d with
  | [] => None
  | (k', v) :: d' => if keq k k' then Some v else dict_get k d'
  end.

Fixpoint dict_set (k : K) (v : V) (d : list (K * V)) : list (K * V) :=
  match d with
  | [] => [(k, v)]
  | (k', v') :: d' =>
      if keq k k' then (k', v) :: d' else (k', v') :: dict_set k v d'
  end.

(** [d.update(u)]: the items of [u] assigned in order. *)
Definition dict_update (d u : list (K * V)) : list (K * V) :=
  fold_left (fun acc kv => dict_set (fst kv) (snd kv) acc) u d.

Definition dict_values (d : list (K * V)) : list V := map snd d.
End Dict.

Definition sget := @dict_get string pyval String.eqb.
Definition sset := @dict_set string pyval String.eqb.

(** *** Equality, truth value, membership *)

(** [a == b].  [True == 1] holds in Python; lists compare element by
    element, mappings key by key whatever the order. *)
Fixpoint py_eq (a b : pyval) : bool :=
  match a, b with
  | PNone, PNone => true
  | PBool x, PBool y => Bool.eqb x y
  | PBool x, PInt z => z =? Z.b2z x
  | PInt z, PBool x => z =? Z.b2z x
  | PInt x, PInt y => x =? y
  | PStr x, PStr y => String.eqb x y
  | PList xs, PList ys =>
      (fix go (xs ys : list pyval) : bool :=
         match xs, ys with
         | [], [] => true
         | x :: xs', y :: ys' => py_eq x y && go xs' ys'
         | _, _ => false
         end) xs ys
  | PDict d1, PDict d2 =>
      (Nat.eqb (List.length d1) (List.length d2)) &&
      (fix all (d : list (string * pyval)) : bool :=
         match d with
         | [] => true
         | (k, v) :: d' =>
             match dict_get String.eqb k d2 with
             | Some v' => py_eq v v'
             | None => false
             end && all d'
         end) d1
  | _, _ => false
  end.

(** The truth value an [if] tests. *)
Definition truthy (v : pyval) : bool :=
  match v with
  | PNone => false
  | PBool b => b
  | PInt z => negb (z =? 0)
  | PStr s => negb (String.eqb s "")
  | PList l => match l with [] => false | _ => true end
  | PDict d => match d with [] => false | _ => true end
  end.

(** [x in l] for a list [l]. *)
Definition py_in (x : pyval) (l : list pyval) : bool :=
  existsb (fun e => py_eq x e) l.

(** *** Subscripts *)

Definition chars (s : string) : list pyval :=
  map (fun c => PStr (String c EmptyString)) (list_ascii_of_string s).

(** [l[i]] on a sequence of length [n]: a negative index counts from the
    end. *)
Definition seq_index (l : list pyval) (i : Z) : result pyval :=
  let n := Z.of_nat (List.length l) in
  let j := if i <? 0 then i + n else i in
  if (0 <=? j) && (j <? n)
  then match nth_error l (Z.to_nat j) with
       | Some v => Ok v
       | None => Raise IndexError
       end
  else Raise IndexError.

(** [v[i]] with an integer [i]. *)
Definition py_index (v : pyval) (i : Z) : result pyval :=
  match v with
  | PList l => seq_index l i
  | PStr s => seq_index (chars s) i
  | PDict _ => Raise KeyError
  | _ => Raise TypeError
  end.

(** [v[k]] with a string [k]. *)
Definition py_item (v : pyval) (k : string) : result pyval :=
  match v with
  | PDict d => match sget k d with
               | Some x => Ok x
               | None => Raise KeyError
               end
  | _ => Raise TypeError
  end.

(** [for x in v]: the elements the loop visits. *)
Definition py_iter (v : pyval) : result (list pyval) :=
  match v with
  | PList l => Ok l
  | PStr s => Ok (chars s)
  | PDict d => Ok (map (fun kv => PStr (fst kv)) d)
  | _ => Raise TypeError
  end.

(** [v.values()]. *)
Definition py_values (v : pyval) : result (list pyval) :=
  match v with
  | PDict d => Ok (dict_values d)
  | _ => Raise AttributeError
  end.

(** *** Strings *)

Definition is_upper (c : ascii) : bool :=
  let n := nat_of_ascii c in (Nat.leb 65 n) && (Nat.leb n 90).
Definition is_lower (c : ascii) : bool :=
  let n := nat_of_ascii c in (Nat.leb 97 n) && (Nat.leb n 122).

Definition lower_char (c : ascii) : ascii :=
  if is_upper c then ascii_of_nat (nat_of_ascii c + 32) else c.
Definition upper_char (c : ascii) : ascii :=
  if is_lower c then ascii_of_nat (nat_of_ascii c - 32) else c.

Fixpoint smap (f : ascii -> ascii) (s : string) : string :=
  match s with
  | EmptyString => EmptyString
  | String c s' => String (f c) (smap f s')
  end.

(** [s.lower()] and [s.upper()] for a string [s] of ASCII characters,
    where Python changes the letters [A]-[Z] and [a]-[z] and nothing
    else. *)
Definition lower (s : string) : string := smap lower_char s.
Definition upper (s : string) : string := smap upper_char s.

(** [v.lower()], [v.upper()]: only [str] has the method. *)
Definition py_lower (v : pyval) : result pyval :=
  match v with PStr s => Ok (PStr (lower s)) | _ => Raise AttributeError end.
Definition py_upper (v : pyval) : result pyval :=
  match v with PStr s => Ok (PStr (upper s)) | _ => Raise AttributeError end.

(** [a + b]. *)
Definition py_add (a b : pyval) : result pyval :=
  match a, b with
  | PStr x, PStr y => Ok (PStr (x ++ y))
  | PList x, PList y => Ok (PList (x ++ y)%list)
  | PInt x, PInt y => Ok (PInt (x + y))
  | PBool x, PInt y => Ok (PInt (Z.b2z x + y))
  | PInt x, PBool y => Ok (PInt (x + Z.b2z y))
  | PBool x, PBool y => Ok (PInt (Z.b2z x + Z.b2z y))
  | _, _ => Raise TypeError
  end.

(** Keys of a [dict] must be hashable: lists and mappings are not. *)
Definition hashable (v : pyval) : bool :=
  match v with
  | PList _ | PDict _ => false
  | _ => true
  end.

End Py.
Export Py.

(* ------------------------------------------------------------------ *)
(** ** Exceptions and the logger *)

Module M.

Definition M (A : Type) : Type := list logrec -> result A * list logrec.

Definition ret {A} (a : A) : M A := fun lg => (Ok a, lg).

Definition bind {A B} (m : M A) (f : A -> M B) : M B :=
  fun lg => match m lg with
            | (Ok a, lg') => f a lg'
            | (Raise e, lg') => (Raise e, lg')
            end.

(** A primitive that returns or raises. *)
Definition lift {A} (r : result A) : M A := fun lg => (r, lg).

Definition raise {A} (e : exn) : M A := lift (Raise e).

(** [logger.warning(msg, *args)]. *)
Definition warning (m : string) (a : list pyval) : M unit :=
  fun lg => (Ok tt, (lg ++ [Warning m a])%list).

(** [try: body  except E: handler]. *)
Definition try_except {A} (body : M A) (E : exn) (handler : M A) : M A :=
  fun lg => match body lg with
            | (Ok a, lg') => (Ok a, lg')
            | (Raise e, lg') =>
                if exn_eqb e E then handler lg' else (Raise e, lg')
            end.

(** [for x in xs: s = body x s]. *)
Fixpoint for_each {X S} (xs : list X) (body : X -> S -> M S) (s : S) : M S :=
  match xs with
  | [] => ret s
  | x :: xs' => bind (body x s) (for_each xs' body)
  end.

End M.
Export M.

Declare Scope py_scope.
Delimit Scope py_scope with py.
Notation "x <- m ;; k" := (bind m (fun x => k))
  (at level 61, m at next level, right associativity) : py_scope.
Notation "m ;;; k" := (bind m (fun _ => k))
  (at level 61, right associativity) : py_scope.
Notation "x <~ r ;; k" := (bind (lift r) (fun x => k))
  (at level 61, r at next level, right associativity) : py_scope.
Local Open Scope py_scope.

(* ------------------------------------------------------------------ *)
(** ** The host's tables *)

(** A table as [pd.DataFrame.from_dict] builds it from the host's data: the
    columns in order, each a label and its cells. *)
Definition DataFrame : Type := list (string * list pyval).

(** The project handle: what [project.volumetric_tables] holds, by name. *)
Record Project : Type := { volumetric_tables : list (string * DataFrame) }.

(** [project.volumetric_tables[name]]: a lookup error when no table has
    that name (a name that is not a string names no table). *)
Definition table_item (project : Project) (name : pyval) : result DataFrame :=
  match name with
  | PStr n => match dict_get String.eqb n (volumetric_tables project) with
              | Some t => Ok t
              | None => Raise KeyError
              end
  | _ => Raise KeyError
  end.

Definition RENAME_VOLUMES : list (string * string) :=
  [ ("Proj. real.", "REAL");
    ("Zone", "ZONE");
    ("Segment", "REGION");
    ("Boundary", "LICENSE");
    ("Facies", "FACIES");
    ("BulkOil", "BULK_OIL");
    ("NetOil", "NET_OIL");
    ("PoreOil", "PORV_OIL");
    ("HCPVOil", "HCPV_OIL");
    ("STOIIP", "STOIIP_OIL");
    ("AssociatedGas", "ASSOCIATEDGAS_OIL");
    ("BulkGas", "BULK_GAS");
    ("PoreGas", "PORV_GAS");
    ("HCPVGas", "HCPV_GAS");
    ("GIIP", "GIIP_GAS");
    ("AssociatedLiquid", "ASSOCIATEDOIL_GAS");
    ("Bulk", "BULK_TOTAL");
    ("Net", "NET_TOTAL");
    ("Pore", "PORV_TOTAL") ].

(** [df.rename(columns=mapping)]: a label the mapping has is replaced,
    another is kept. *)
Definition rename_label (mapping : list (string * string)) (l : string)
  : string :=
  match dict_get String.eqb l mapping with
  | Some l' => l'
  | None => l
  end.

Definition rename (mapping : list (string * string)) (df : DataFrame)
  : DataFrame :=
  map (fun col => (rename_label mapping (fst col), snd col)) df.

Definition has_column (label : string) (df : DataFrame) : bool :=
  existsb (fun col => String.eqb (fst col) label) df.

(** [df.drop(label, axis=1)]: a lookup error when no column has the label,
    otherwise every column with that label is removed. *)
Definition drop (label : string) (df : DataFrame) : result DataFrame :=
  if has_column label df
  then Ok (filter (fun col => negb (String.eqb (fst col) label)) df)
  else Raise KeyError.

(* ------------------------------------------------------------------ *)
(** ** export_helpers.py *)

Definition _define_prefixes (out_input : pyval) : M (list pyval) :=
  prefix <~ py_item out_input "Prefix" ;;
  prefix <~ (if negb (py_eq prefix (PStr ""))
             then py_add prefix (PStr "_")
             else Ok prefix) ;;
  let prefixes := [] in
  use_gas <~ py_item out_input "UseGas" ;;
  prefixes <~ (if truthy use_gas
               then match py_add prefix (PStr "Gas_") with
                    | Ok p => Ok (prefixes ++ [p])%list
                    | Raise e => Raise e
                    end
               else Ok prefixes) ;;
  use_oil <~ py_item out_input "UseOil" ;;
  prefixes <~ (if truthy use_oil
               then match py_add prefix (PStr "Oil_") with
                    | Ok p => Ok (prefixes ++ [p])%list
                    | Raise e => Raise e
                    end
               else Ok prefixes) ;;
  ret prefixes.

(** The mapping [_define_output] returns; [table] is the key
    [__post_init__] adds later ([None] while the key is absent). *)
Record collated : Type := Collated {
  maps : list pyval;
  properties : list pyval;
  map_location : pyval;
  map_subfolders : pyval;
  table : option (option DataFrame)
}.

(** The body of the inner loop of [_define_output]; the state is
    [(properties, maps)]. *)
Definition output_step (calculation prfx : pyval)
  (st : list pyval * list pyval) : M (list pyval * list pyval) :=
  let '(properties, maps) := st in
  create_property <~ py_item calculation "CreateProperty" ;;
  properties <- (if truthy create_property
                 then ty <~ py_item calculation "Type" ;;
                      ty <~ py_lower ty ;;
                      name <~ py_add prfx ty ;;
                      ret (properties ++ [name])%list
                 else ret properties) ;;
  create_zone_map <~ py_item calculation "CreateZoneMap" ;;
  maps <- (if truthy create_zone_map
           then ty <~ py_item calculation "Type" ;;
                ty <~ py_upper ty ;;
                name <~ py_add prfx ty ;;
                ret (maps ++ [name])%list
           else ret maps) ;;
  ret (properties, maps).

Definition _define_output (out_input selectors : pyval) : M collated :=
  map_output <~ py_item out_input "MapOutput" ;;
  out_location <~ py_lower map_output ;;
  calculations <~ py_item out_input "Calculations" ;;
  prefixes <- _define_prefixes out_input ;;
  calculations <~ py_iter calculations ;;
  st <- for_each calculations
          (fun calculation => for_each prefixes (output_step calculation))
          ([], []) ;;
  let '(properties, maps) := st in
  zone <~ py_item selectors "Zone" ;;
  filters <~ py_item zone "filters" ;;
  ret {| maps := maps;
         properties := properties;
         map_location := out_location;
         map_subfolders := filters;
         table := None |}.

(** [var_definitions]: a mapping keyed by the variables' names. *)
Definition var_definitions_t : Type := list (pyval * pyval).

Definition var_get := @dict_get pyval pyval py_eq.
Definition var_set := @dict_set pyval pyval py_eq.

(** The body of the inner loop of [_define_variables]; the state is
    [(var_definitions, variable_parameters)]. *)
Definition variable_step (variable : pyval)
  (st : var_definitions_t * list pyval) : M (var_definitions_t * list pyval) :=
  let '(var_definitions, variable_parameters) := st in
  name <~ py_item variable "Name" ;;
  source <~ py_item variable "InputSource" ;;
  table_values <~ py_item variable "TableValues" ;;
  data_input <~ py_item variable "DataInput" ;;
  tv <- (if truthy data_input
         then data_input <~ py_item variable "DataInput" ;;
              first <~ py_index data_input 0 ;;
              propname <~ py_index first (-1) ;;
              ret (PDict [("property", propname)],
                   if negb (py_in propname variable_parameters)
                   then (variable_parameters ++ [propname])%list
                   else variable_parameters)
         else if py_eq source (PStr "REGION_MODEL")
              then ret (PStr "hidden", variable_parameters)
              else ret (table_values, variable_parameters)) ;;
  let '(table_values, variable_parameters) := tv in
  applies <~ py_item variable "InputType" ;;
  if hashable name
  then ret (var_set name
              (PDict [("applies", applies); ("values", table_values)])
              var_definitions,
            variable_parameters)
  else raise TypeError.

Definition _define_variables (variables_input : pyval)
  : M (var_definitions_t * list pyval) :=
  groups <~ py_values variables_input ;;
  for_each groups
    (fun var_group st =>
       variables <~ py_iter var_group ;;
       for_each variables variable_step st)
    ([], []).

(** The body of the [try] of [_define_selectors]. *)
Definition selector_entry (in_dict : pyval) (key : string) : result pyval :=
  match py_item in_dict ("Selected" ++ key ++ "Names") with
  | Raise e => Raise e
  | Ok filters =>
      match py_item in_dict (key ++ "Property") with
      | Raise e => Raise e
      | Ok property =>
          match py_index property (-1) with
          | Raise e => Raise e
          | Ok parameter =>
              Ok (PDict [("filters", filters); ("parameter", parameter)])
          end
      end
  end.

Definition selector_step (in_dict : pyval) (key : string)
  (selectors : list (string * pyval)) : M (list (string * pyval)) :=
  try_except
    (entry <~ selector_entry in_dict key ;;
     ret (sset key entry selectors))
    IndexError
    (warning "No selectors for %s" [PStr key] ;;;
     ret selectors).

Definition possible_selectors : list string := ["Zone"; "Region"; "Facies"].

(** The closing [selectors.update(...)] of [_define_selectors]. *)
Definition selectors_update (in_dict : pyval)
  (selectors : list (string * pyval)) : M (list (string * pyval)) :=
  zone_names <~ py_item in_dict "SelectedZoneNames" ;;
  ret (dict_update String.eqb selectors
         [ ("Zone", PDict [("filters", zone_names)]);
           ("parameter", PStr "subgrids") ]).

Definition _define_selectors (in_dict : pyval) : M (list (string * pyval)) :=
  selectors <- for_each (tl possible_selectors) (selector_step in_dict) [] ;;
  selectors_update in_dict selectors.

Definition get_volumetrics (report_params : pyval) (project : Project)
  : M (option DataFrame) :=
  try_except
    (report <~ py_index report_params 0 ;;
     name <~ py_item report "ReportTableName" ;;
     volumes <~ table_item project name ;;
     let volumes := rename RENAME_VOLUMES volumes in
     volumes <~ drop "REAL" volumes ;;
     ret (Some volumes))
    KeyError
    (warning "No volume table attached" [] ;;;
     ret None).

(** ** RmsInplaceVolumes *)

Module RmsInplaceVolumes.

Record t : Type := Make {
  project : Project;
  grid_name : string;
  job_name : string;
  params : pyval;
  input : pyval;
  output : pyval;
  variables : pyval;
  report : option DataFrame;
  selectors : list (string * pyval);
  report_output : collated;
  input_variables : var_definitions_t
}.

Section Host.
(** The host application, reached through [utils.py]: the job's arguments
    and the project handle. *)
Variable get_job_arguments : list string -> string -> string -> M pyval.
Variable _get_project : pyval -> bool -> M Project.

Definition __post_init__ (project : pyval) (grid_name job_name : string)
  : M t :=
  params <- get_job_arguments ["Grid models"; grid_name; "Grid"]
              "Volumetrics" job_name ;;
  project <- _get_project project true ;;
  input <~ py_item params "Input" ;;
  input <~ py_index input 0 ;;
  output <~ py_item params "Output" ;;
  output <~ py_index output 0 ;;
  variables <~ py_item params "Variables" ;;
  variables <~ py_index variables 0 ;;
  report_params <~ py_item params "Report" ;;
  report <- get_volumetrics report_params project ;;
  selectors <- _define_selectors input ;;
  report_output <- _define_output output (PDict selectors) ;;
  vars <- _define_variables variables ;;
  let '(input_variables, additional_props) := vars in
  let report_output :=
    {| maps := maps report_output;
       properties := (properties report_output ++ additional_props)%list;
       map_location := map_location report_output;
       map_subfolders := map_subfolders report_output;
       table := table report_output |} in
  let report_output :=
    {| maps := maps report_output;
       properties := properties report_output;
       map_location := map_location report_output;
       map_subfolders := map_subfolders report_output;
       table := Some report |} in
  ret {| project := project;
         grid_name := grid_name;
         job_name := job_name;
         params := params;
         input := input;
         output := output;
         variables := variables;
         report := report;
         selectors := selectors;
         report_output := report_output;
         input_variables := input_variables |}.
End Host.

End RmsInplaceVolumes.

(* ------------------------------------------------------------------ *)
(** ** Specification functions and sample inputs *)

(** *** The prefix builder *)

(** The separator base: [Prefix + "_"] when [Prefix] is not empty. *)
Definition prefix_base (prefix : string) : string :=
  if String.eqb prefix "" then "" else prefix ++ "_".

(** The prefixes in the fixed order, gas before oil. *)
Definition prefixes_of (prefix : string) (use_gas use_oil : bool)
  : list string :=
  ((if use_gas then [(prefix_base prefix ++ "Gas_")%string] else []) ++
   (if use_oil then [(prefix_base prefix ++ "Oil_")%string] else []))%list.

Definition prefix_config (prefix : string) (use_gas use_oil : bool) : pyval :=
  PDict [("Prefix", PStr prefix);
         ("UseGas", PBool use_gas);
         ("UseOil", PBool use_oil)].

(** *** The output resolver *)

(** What a calculation entry says, read as the loop body reads it. *)
Definition calc_type (c : pyval) : string :=
  match py_item c "Type" with
  | Ok (PStr ty) => ty
  | _ => ""
  end.

Definition calc_flag (c : pyval) (key : string) : bool :=
  match py_item c key with
  | Ok v => truthy v
  | Raise _ => false
  end.

(** A calculation entry with its three fields, [Type] a string. *)
Definition calc_ok (c : pyval) : Prop :=
  (exists ty, py_item c "Type" = Ok (PStr ty)) /\
  (exists v, py_item c "CreateProperty" = Ok v) /\
  (exists v, py_item c "CreateZoneMap" = Ok v).

(** A string of ASCII characters only.  On such strings [lower] and
    [upper] are Python's [str.lower] and [str.upper]. *)
Definition is_ascii (s : string) : bool :=
  forallb (fun c => Nat.ltb (nat_of_ascii c) 128) (list_ascii_of_string s).

(** Calculation entries whose [Type] is an ASCII string. *)
Definition ascii_types (calcs : list pyval) : Prop :=
  Forall (fun c => is_ascii (calc_type c) = true) calcs.

(** The names in calculation-major, prefix-minor order: the calculations in
    input order, and for each calculation whose flag is set one name per
    prefix, in the order of the prefixes. *)
Definition names_of (flag : string) (case : string -> string)
  (prefixes : list string) (calcs : list pyval) : list pyval :=
  flat_map
    (fun c =>
       if calc_flag c flag
       then map (fun prfx => PStr (prfx ++ case (calc_type c))) prefixes
       else [])
    calcs.

Definition property_names := names_of "CreateProperty" lower.
Definition map_names := names_of "CreateZoneMap" upper.

(** The run of the specification: one calculation [Stoiip] with both flags
    set, oil only, no user prefix. *)
Definition stoiip_calculation : pyval :=
  PDict [("Type", PStr "Stoiip");
         ("CreateProperty", PBool true);
         ("CreateZoneMap", PBool true)].

Definition stoiip_output : pyval :=
  PDict [("Prefix", PStr "");
         ("UseGas", PBool false);
         ("UseOil", PBool true);
         ("MapOutput", PStr "Clipboard");
         ("Calculations", PList [stoiip_calculation])].

Definition zone_filters (names : pyval) : pyval :=
  PDict [("filters", names)].

Definition zone_selectors (names : pyval) : pyval :=
  PDict [("Zone", zone_filters names); ("parameter", PStr "subgrids")].

(** An entry of the form [prefix + suffix] for one of the prefixes, the
    prefix not empty. *)
Definition prefixed (prefixes : list string) (e : pyval) : Prop :=
  exists prfx suffix,
    In prfx prefixes /\ prfx <> "" /\ e = PStr (prfx ++ suffix).

(** A configuration with no fluid phase selected, and calculations that
    ask for everything. *)
Definition no_phase_output : pyval :=
  PDict [("Prefix", PStr "Vol");
         ("UseGas", PBool false);
         ("UseOil", PBool false);
         ("MapOutput", PStr "Clipboard");
         ("Calculations", PList [stoiip_calculation; stoiip_calculation])].

(** *** The variable resolver *)

(** [AdditionalProperties] after one more reference to [p]. *)
Definition record_property (p : pyval) (recorded : list pyval) : list pyval :=
  if py_in p recorded then recorded else (recorded ++ [p])%list.

(** The definition stored for a variable linked to the property [p]. *)
Definition linked_definition (applies p : pyval) : pyval :=
  PDict [("applies", applies); ("values", PDict [("property", p)])].

(** A variable entry of the job arguments. *)
Definition variable_entry (name source : string) (table_values data_input
  : pyval) (input_type : string) : pyval :=
  PDict [("Name", PStr name);
         ("InputSource", PStr source);
         ("TableValues", table_values);
         ("DataInput", data_input);
         ("InputType", PStr input_type)].

(** A variable linked to two data inputs that end in different names. *)
Definition two_inputs : pyval :=
  PList [PList [PStr "a"; PStr "PORO"]; PList [PStr "b"; PStr "PERM"]].

Definition two_inputs_variable : pyval :=
  variable_entry "Porosity" "TABLE" (PList []) two_inputs "zone".

(** *** The additional properties *)

(** The property a variable entry refers to through [DataInput], read as
    the loop body reads it; none when [DataInput] is empty. *)
Definition referenced (variable : pyval) : option pyval :=
  match py_item variable "DataInput" with
  | Ok data_input =>
      if truthy data_input
      then match py_index data_input 0 with
           | Ok first =>
               match py_index first (-1) with
               | Ok propname => Some propname
               | Raise _ => None
               end
           | Raise _ => None
           end
      else None
  | Raise _ => None
  end.

(** The variable entries in the order the two loops visit them. *)
Definition group_entries (var_group : pyval) : list pyval :=
  match py_iter var_group with
  | Ok variables => variables
  | Raise _ => []
  end.

Definition iterated (variables_input : pyval) : list pyval :=
  match py_values variables_input with
  | Ok groups => flat_map group_entries groups
  | Raise _ => []
  end.

(** The properties referred to, one per linked variable, in that order. *)
Definition references (variables : list pyval) : list pyval :=
  flat_map
    (fun variable =>
       match referenced variable with
       | Some propname => [propname]
       | None => []
       end)
    variables.

(** A list without its repetitions: each name where it first occurs. *)
Fixpoint dedup (names : list string) : list string :=
  match names with
  | [] => []
  | x :: rest => x :: filter (fun y => negb (String.eqb x y)) (dedup rest)
  end.

Definition memb (y : string) (seen : list string) : bool :=
  existsb (fun a => String.eqb y a) seen.

(** What one pass of the loop body does to the recorded properties. *)
Definition record_variable (recorded : list pyval) (variable : pyval)
  : list pyval :=
  match referenced variable with
  | Some propname => record_property propname recorded
  | None => recorded
  end.

(** Two groups whose variables refer to [PORO] twice and to [PERM] once. *)
Definition shared_variables : pyval :=
  PDict
    [("Oil",
      PList [variable_entry "Porosity" "TABLE" (PList [])
               (PList [PList [PStr "a"; PStr "b"; PStr "PORO"]]) "zone";
             variable_entry "Permeability" "TABLE" (PList [])
               (PList [PList [PStr "PERM"]]) "zone"]);
     ("Gas",
      PList [variable_entry "GasPorosity" "REGION_MODEL" (PList [])
               (PList [PList [PStr "c"; PStr "PORO"]]) "region";
             variable_entry "Contact" "REGION_MODEL" (PList [PInt 1700])
               (PList []) "region"])].

Definition shared_definitions : var_definitions_t :=
  match fst (_define_variables shared_variables []) with
  | Ok (defs, _) => defs
  | Raise _ => []
  end.

(** *** The selector resolver *)

(** The warning written when a selector has no property. *)
Definition no_selector (key : string) : logrec :=
  Warning "No selectors for %s" [PStr key].

(** The shape the closing update leaves: [Zone] holds the filters alone
    and [parameter] sits beside it. *)
Definition zone_shape (zone_names : pyval) (selectors : list (string * pyval))
  : Prop :=
  sget "Zone" selectors = Some (PDict [("filters", zone_names)]) /\
  py_item (PDict [("filters", zone_names)]) "parameter" = Raise KeyError /\
  sget "parameter" selectors = Some (PStr "subgrids").

(** An input section with every selector key, the region without a
    property. *)
Definition full_input : pyval :=
  PDict [("SelectedZoneNames", PList [PStr "Upper"; PStr "Lower"]);
         ("SelectedRegionNames", PList [PStr "North"]);
         ("RegionProperty", PList []);
         ("SelectedFaciesNames", PList [PStr "Sand"]);
         ("FaciesProperty", PList [PStr "Grid"; PStr "FACIES"])].

(** What the resolver stores for a selector: nothing when its property
    list is empty, else the filters with the last property. *)
Definition selector_of (names : pyval) (property : list pyval)
  : option pyval :=
  match property with
  | [] => None
  | _ :: _ =>
      Some (PDict [("filters", names); ("parameter", last property PNone)])
  end.

Definition selector_warning (key : string) (property : list pyval)
  : list logrec :=
  match property with
  | [] => [no_selector key]
  | _ :: _ => []
  end.

(** The same input section without the key [RegionProperty]. *)
Definition absent_region_property : pyval :=
  PDict [("SelectedZoneNames", PList [PStr "Upper"; PStr "Lower"]);
         ("SelectedRegionNames", PList [PStr "North"]);
         ("SelectedFaciesNames", PList [PStr "Sand"]);
         ("FaciesProperty", PList [PStr "Grid"; PStr "FACIES"])].

(** *** The table loader *)

(** The warning written when the lookup error is caught. *)
Definition no_table : logrec := Warning "No volume table attached" [].

(** The table the loader hands over: renamed, without [REAL]. *)
Definition renamed_without_real (t : DataFrame) : DataFrame :=
  filter (fun col => negb (String.eqb (fst col) "REAL"))
    (rename RENAME_VOLUMES t).

(** A project with one table as the host names its columns, and one whose
    table has no realization column. *)
Definition volumes_table : DataFrame :=
  [("Proj. real.", [PInt 1; PInt 1]);
   ("Zone", [PStr "Upper"; PStr "Lower"]);
   ("STOIIP", [PInt 120; PInt 80])].

Definition zone_only_table : DataFrame :=
  [("Zone", [PStr "Upper"; PStr "Lower"]);
   ("STOIIP", [PInt 120; PInt 80])].

Definition example_project : Project :=
  {| volumetric_tables :=
       [("Volumes", volumes_table); ("ZoneOnly", zone_only_table)] |}.

Definition report_naming (name : string) : pyval :=
  PList [PDict [("ReportTableName", PStr name)]].

(** Job arguments whose report section is empty. *)
Definition empty_report_params : pyval :=
  PDict [("Input", PList [full_input]);
         ("Output", PList [stoiip_output]);
         ("Variables", PList [shared_variables]);
         ("Report", PList [])].

(** *** The host *)

(** Job arguments with the sections above, and a host that hands them
    over. *)
Definition example_params : pyval :=
  PDict [("Input", PList [full_input]);
         ("Output", PList [stoiip_output]);
         ("Variables", PList [shared_variables]);
         ("Report", report_naming "Volumes")].

Definition host_arguments (params : pyval)
  : list string -> string -> string -> M pyval :=
  fun _ _ _ => ret params.

Definition host_project (handle : Project) : pyval -> bool -> M Project :=
  fun _ _ => ret handle.

(** *** Counting *)

(** The calculations whose flag is set. *)
Definition flagged (flag : string) (calcs : list pyval) : list pyval :=
  filter (fun c => calc_flag c flag) calcs.

(** An output section with every key, gas and oil, a user prefix and two
    calculations. *)
Definition giip_calculation : pyval :=
  PDict [("Type", PStr "Giip");
         ("CreateProperty", PBool true);
         ("CreateZoneMap", PBool false)].

Definition two_phase_output : pyval :=
  PDict [("Prefix", PStr "Vol");
         ("UseGas", PBool true);
         ("UseOil", PBool true);
         ("MapOutput", PStr "Clipboard");
         ("Calculations", PList [stoiip_calculation; giip_calculation])].

(** An output section whose prefix was left unset. *)
Definition unset_prefix_output : pyval :=
  PDict [("Prefix", PNone);
         ("UseGas", PBool false);
         ("UseOil", PBool false)].

(** *** The variable definitions *)

(** The name, the values and the definition of a variable entry, read as
    the loop body reads them. *)
Definition var_name (variable : pyval) : pyval :=
  match py_item variable "Name" with
  | Ok name => name
  | Raise _ => PNone
  end.

Definition var_values (variable : pyval) : pyval :=
  match referenced variable with
  | Some propname => PDict [("property", propname)]
  | None =>
      match py_item variable "InputSource", py_item variable "TableValues" with
      | Ok source, Ok table_values =>
          if py_eq source (PStr "REGION_MODEL")
          then PStr "hidden"
          else table_values
      | _, _ => PNone
      end
  end.

Definition var_definition (variable : pyval) : pyval :=
  PDict [("applies",
          match py_item variable "InputType" with
          | Ok applies => applies
          | Raise _ => PNone
          end);
         ("values", var_values variable)].

(** What one pass of the loop body does to the definitions. *)
Definition define_variable (defs : var_definitions_t) (variable : pyval)
  : var_definitions_t :=
  var_set (var_name variable) (var_definition variable) defs.

(** Two variables of one name, the second a region-model variable
    without data input, and a contact with its own table. *)
Definition renamed_variables : pyval :=
  PDict
    [("Oil",
      PList [variable_entry "Porosity" "TABLE" (PList [])
               (PList [PList [PStr "PORO"]]) "zone";
             variable_entry "Contact" "TABLE" (PList [PInt 1700])
               (PList []) "region"]);
     ("Gas",
      PList [variable_entry "Porosity" "REGION_MODEL" (PList [PInt 1])
               (PList []) "region"])].

Definition renamed_definitions : var_definitions_t :=
  [(PStr "Porosity",
    PDict [("applies", PStr "region"); ("values", PStr "hidden")]);
   (PStr "Contact",
    PDict [("applies", PStr "region"); ("values", PList [PInt 1700])])].

(** A variable linked to a data input that is an empty list. *)
Definition empty_input_variable : pyval :=
  variable_entry "Porosity" "TABLE" (PList []) (PList [PList []]) "zone".

(** *** The columns of a table *)

(** The labels the rename table gives and the labels it replaces. *)
Definition new_labels : list string := map snd RENAME_VOLUMES.
Definition host_labels : list string := map fst RENAME_VOLUMES.

(** The columns that do not reach the exported table: the realization
    column under the host's name or under the new one. *)
Definition is_realization (label : string) : bool :=
  String.eqb label "Proj. real." || String.eqb label "REAL".

(* ------------------------------------------------------------------ *)
(** ** The exporter

    [_export_collection] hands the export plan to the host libraries: the
    surface and grid-property readers and the metadata exporter.  They are
    parameters here.  A call into the host may change the host's state and
    may raise; the log of this module is not the host's to write.  Unlike
    above, the log records every level: the count of exported objects is
    an [INFO] record and every export that returned leaves a [DEBUG]
    record. *)

Module Exporter.

(** The errors of a run: those of the operations on values, the
    [ValueError] the grid-property reader answers with, and any other
    error of the host (neither a lookup error nor a value error). *)
Inductive xexn : Type :=
| Py (e : exn)
| ValueError
| HostError (name : string).

Definition xexn_eqb (a b : xexn) : bool :=
  match a, b with
  | Py x, Py y => exn_eqb x y
  | ValueError, ValueError => true
  | HostError x, HostError y => String.eqb x y
  | _, _ => false
  end.

Inductive xresult (A : Type) : Type :=
| XOk (a : A)
| XRaise (e : xexn).
Arguments XOk {A} a.
Arguments XRaise {A} e.

Inductive level : Type := DEBUG | INFO | WARNING.

Record entry : Type := Entry {
  lvl : level;
  text : string;
  values : list pyval
}.

Section Host.
Variables World Config ExportData Surface GridProperty : Type.

(** A call into the host. *)
Definition host (A : Type) : Type := World -> xresult A * World.

(** A run of the exporter: the host's state and the log. *)
Definition X (A : Type) : Type :=
  World * list entry -> xresult A * (World * list entry).

Definition xret {A} (a : A) : X A := fun s => (XOk a, s).

Definition xbind {A B} (m : X A) (f : A -> X B) : X B :=
  fun s => match m s with
           | (XOk a, s') => f a s'
           | (XRaise e, s') => (XRaise e, s')
           end.

Definition xraise {A} (e : xexn) : X A := fun s => (XRaise e, s).

Definition call {A} (h : host A) : X A :=
  fun s => match h (fst s) with
           | (r, w) => (r, (w, snd s))
           end.

Definition of_result {A} (r : result A) : X A :=
  fun s => match r with
           | Ok a => (XOk a, s)
           | Raise e => (XRaise (Py e), s)
           end.

Definition log (l : level) (m : string) (a : list pyval) : X unit :=
  fun s => (XOk tt, (fst s, (snd s ++ [Entry l m a])%list)).

(** [try: body  except E: handler]. *)
Definition xtry {A} (body : X A) (E : xexn) (handler : X A) : X A :=
  fun s => match body s with
           | (XOk a, s') => (XOk a, s')
           | (XRaise e, s') =>
               if xexn_eqb e E then handler s' else (XRaise e, s')
           end.

Fixpoint xfor_each {T S} (xs : list T) (body : T -> S -> X S) (s : S) : X S :=
  match xs with
  | [] => xret s
  | x :: xs' => xbind (body x s) (xfor_each xs' body)
  end.

(** What [exd.export] is given. *)
Inductive exported : Type :=
| ESurface (surf : Surface)
| EProperty (prop : GridProperty)
| ETable (volumes : DataFrame).

Variable yaml_load : string -> host Config.
(** [ExportData(config=config, parent=parent)]. *)
Variable new_ExportData : Config -> string -> host ExportData.
(** [surface_from_roxar(project, name, category, stype=stype)]. *)
Variable surface_from_roxar :
  Project -> pyval -> string -> pyval -> host Surface.
(** [gridproperty_from_roxar(project, gridname, pname)]. *)
Variable gridproperty_from_roxar : Project -> string -> pyval -> host GridProperty.
(** [exd.export(obj, parent=..., name=..., tagname=..., content=...)]; it
    returns the path written. *)
Variable export :
  ExportData -> exported -> option string -> pyval -> string -> string ->
  host string.
(** The text an f-string gives a value that is not a string. *)
Variable py_repr : pyval -> string.

Definition py_format (v : pyval) : string :=
  match v with
  | PStr s => s
  | _ => py_repr v
  end.

(** The body of the inner loop over the maps. *)
Definition surface_step (project : Project) (collection : collated)
  (job_name : string) (exd : ExportData) (map_name folder_name : pyval)
  (count : Z) : X Z :=
  let folder_name :=
    "Volumetrics_" ++ job_name ++ "/" ++ py_format folder_name in
  xbind (log DEBUG "Fetching surface with name: %s, folder: %s"
           [map_name; PStr folder_name]) (fun _ =>
  xtry
    (xbind (call (surface_from_roxar project map_name folder_name
                    (map_location collection))) (fun surf =>
     xbind (call (export exd (ESurface surf) None map_name job_name
                    "property")) (fun path =>
     xbind (log DEBUG "Exporting %s" [PStr path]) (fun _ =>
     xret (count + 1)))))
    (Py KeyError)
    (xbind (log WARNING "No surface called %s" [map_name]) (fun _ =>
     xret count))).

Definition export_maps (project : Project) (collection : collated)
  (job_name : string) (exd : ExportData) (count : Z) : X Z :=
  xfor_each (maps collection)
    (fun map_name count =>
       xbind (of_result (py_iter (map_subfolders collection)))
         (fun folders =>
            xfor_each folders
              (surface_step project collection job_name exd map_name)
              count))
    count.

(** The body of the loop over the properties. *)
Definition property_step (project : Project) (parent job_name : string)
  (exd : ExportData) (property_name : pyval) (count : Z) : X Z :=
  xbind (log DEBUG "Will be exporting %s for %s"
           [property_name; PStr parent]) (fun _ =>
  xtry
    (xbind (call (gridproperty_from_roxar project parent property_name))
       (fun prop =>
     xbind (call (export exd (EProperty prop) None property_name job_name
                    "property")) (fun path =>
     xbind (log DEBUG "Exporting %s" [PStr path]) (fun _ =>
     xret (count + 1)))))
    ValueError
    (xbind (log WARNING "No parameter called %s" [property_name]) (fun _ =>
     xret count))).

Definition export_properties (project : Project) (collection : collated)
  (parent job_name : string) (exd : ExportData) (count : Z) : X Z :=
  xfor_each (properties collection)
    (property_step project parent job_name exd) count.

(** The closing [try] around the table. *)
Definition export_table (collection : collated) (parent job_name : string)
  (exd : ExportData) (count : Z) : X Z :=
  xtry
    (match table collection with
     | None => xraise (Py KeyError)
     | Some (Some volumes) =>
         xbind (call (export exd (ETable volumes) (Some parent)
                        (PStr "volumes") job_name "volumetrics"))
           (fun path =>
         xbind (log DEBUG "Exporting %s" [PStr path]) (fun _ =>
         xret (count + 1)))
     | Some None =>
         xbind (log WARNING
                  "No volumes exported, have you forgot to select table option?"
                  []) (fun _ =>
         xret count)
     end)
    (Py KeyError)
    (xbind (log WARNING "No volume table attached" []) (fun _ =>
     xret count)).

Definition _export_collection (project : Project) (collection : collated)
  (parent job_name : string) (config_path : string) : X unit :=
  xbind (call (yaml_load config_path)) (fun config =>
  xbind (call (new_ExportData config parent)) (fun exd =>
  let count := 0 in
  xbind (export_maps project collection job_name exd count) (fun count =>
  xbind (export_properties project collection parent job_name exd count)
    (fun count =>
  xbind (export_table collection parent job_name exd count) (fun count =>
  log INFO "Exported %i objects" [PInt count]))))).

Definition default_config_path : string :=
  "../../fmuconfig/output/global_variables.yml".

(** [RmsInplaceVolumes.export]. *)
Definition export_object (self : RmsInplaceVolumes.t) : X unit :=
  _export_collection (RmsInplaceVolumes.project self)
    (RmsInplaceVolumes.report_output self)
    (RmsInplaceVolumes.grid_name self)
    (RmsInplaceVolumes.job_name self)
    default_config_path.

(** *** Reading the log *)

(** The records of the exports that returned, and the warnings. *)
Definition is_export (e : entry) : bool :=
  match lvl e with
  | DEBUG => String.eqb (text e) "Exporting %s"
  | _ => false
  end.

Definition is_warning (e : entry) : bool :=
  match lvl e with
  | WARNING => true
  | _ => false
  end.

Definition exports_in (l : list entry) : nat :=
  List.length (filter is_export l).

Definition warnings_in (l : list entry) : nat :=
  List.length (filter is_warning l).

(** A stretch of a run that handled [n] items of the plan: the log grew
    by records among which the exports and the warnings are [n] together,
    and the count grew by the exports. *)
Definition accounted (n : nat) (count : Z) (s : World * list entry)
  (count' : Z) (s' : World * list entry) : Prop :=
  exists delta,
    snd s' = (snd s ++ delta)%list /\
    count' = count + Z.of_nat (exports_in delta) /\
    (exports_in delta + warnings_in delta = n)%nat.

End Host.

Arguments xret {World A} a.
Arguments xbind {World A B} m f.
Arguments xraise {World A} e.
Arguments call {World A} h.
Arguments of_result {World A} r.
Arguments log {World} l m a.
Arguments xtry {World A} body E handler.
Arguments xfor_each {World T S} xs body s.
Arguments surface_step {World ExportData Surface GridProperty}.
Arguments export_maps {World ExportData Surface GridProperty}.
Arguments property_step {World ExportData Surface GridProperty}.
Arguments export_properties {World ExportData Surface GridProperty}.
Arguments export_table {World ExportData Surface GridProperty}.
Arguments _export_collection {World Config ExportData Surface GridProperty}.
Arguments export_object {World Config ExportData Surface GridProperty}.
Arguments accounted {World}.
Arguments ESurface {Surface GridProperty} surf.
Arguments EProperty {Surface GridProperty} prop.
Arguments ETable {Surface GridProperty} volumes.

(** The items of a plan: one per map and zone folder, one per property,
    and the table. *)
Definition plan_items (collection : collated) : nat :=
  (List.length (maps collection) *
   List.length (group_entries (map_subfolders collection)) +
   List.length (properties collection) + 1)%nat.

(** The record that closes a run. *)
Definition exported_objects (count : Z) : entry :=
  Entry INFO "Exported %i objects" [PInt count].

Definition no_table_attached : entry :=
  Entry WARNING "No volume table attached" [].

Definition no_volumes_exported : entry :=
  Entry WARNING
    "No volumes exported, have you forgot to select table option?" [].

(** *** A sample host

    Its state is the list of the paths written.  It knows one surface and
    two grid properties; asked for the property [PERM] it fails with a
    lookup error instead of a value error. *)
Definition sample_yaml_load (path : string) : host (list string) unit :=
  fun w => (XOk tt, w).

Definition sample_ExportData (config : unit) (parent : string)
  : host (list string) unit :=
  fun w => (XOk tt, w).

Definition sample_surface (project : Project) (name : pyval)
  (folder : string) (stype : pyval) : host (list string) string :=
  fun w =>
    match name with
    | PStr "Oil_STOIIP" => (XOk folder, w)
    | _ => (XRaise (Py KeyError), w)
    end.

Definition sample_gridproperty (project : Project) (grid : string)
  (name : pyval) : host (list string) string :=
  fun w =>
    match name with
    | PStr "Oil_stoiip" => (XOk "Oil_stoiip", w)
    | PStr "PORO" => (XOk "PORO", w)
    | PStr "PERM" => (XRaise (Py KeyError), w)
    | _ => (XRaise ValueError, w)
    end.

Definition sample_export (exd : unit) (obj : exported string string)
  (parent : option string) (name : pyval) (tagname content : string)
  : host (list string) string :=
  fun w =>
    let path :=
      content ++ "/" ++ tagname ++ "--"
        ++ match name with PStr s => s | _ => "" end in
    (XOk path, (w ++ [path])%list).

Definition sample_repr (v : pyval) : string := "?".

Definition sample_export_collection :=
  @_export_collection (list string) unit unit string string
    sample_yaml_load sample_ExportData sample_surface sample_gridproperty
    sample_export sample_repr.

(** A plan as [__post_init__] leaves it, the table missing. *)
Definition sample_plan : collated :=
  {| maps := [PStr "Oil_STOIIP"; PStr "Gas_GIIP"];
     properties := [PStr "Oil_stoiip"; PStr "Gas_giip"; PStr "PORO"];
     map_location := PStr "clipboard";
     map_subfolders := PList [PStr "Upper"; PStr "Lower"];
     table := Some None |}.

Definition sample_run :=
  Eval vm_compute in
    sample_export_collection example_project sample_plan "Grid" "Volumes"
      default_config_path ([], []).

(** A plan with nothing but the table, which is missing. *)
Definition table_only_plan : collated :=
  {| maps := [];
     properties := [];
     map_location := PStr "clipboard";
     map_subfolders := PList [PStr "Upper"];
     table := Some None |}.

(** A plan with the property the sample host fails on, and one without
    zone folders. *)
Definition perm_plan : collated :=
  {| maps := [];
     properties := [PStr "Oil_stoiip"; PStr "PERM"; PStr "PORO"];
     map_location := PStr "clipboard";
     map_subfolders := PList [PStr "Upper"];
     table := Some None |}.

Definition no_folder_plan : collated :=
  {| maps := [PStr "Oil_STOIIP"; PStr "Gas_GIIP"];
     properties := [PStr "Oil_stoiip"];
     map_location := PStr "clipboard";
     map_subfolders := PList [];
     table := Some None |}.

(** A project that has nothing of what is asked for. *)
Definition missing_surface (project : Project) (name : pyval)
  (folder : string) (stype : pyval) : host (list string) string :=
  fun w => (XRaise (Py KeyError), w).

Definition missing_gridproperty (project : Project) (grid : string)
  (name : pyval) : host (list string) string :=
  fun w => (XRaise ValueError, w).

End Exporter.

(** *** More sample values *)

Definition full_selectors : list (string * pyval) :=
  match fst (_define_selectors full_input []) with
  | Ok selectors => selectors
  | Raise _ => []
  end.


Definition missing_table_params : pyval :=
  PDict [("Input", PList [full_input]);
         ("Output", PList [stoiip_output]);
         ("Variables", PList [shared_variables]);
         ("Report", report_naming "Missing")].

Definition missing_table_object : RmsInplaceVolumes.t :=
  {| RmsInplaceVolumes.project := example_project;
     RmsInplaceVolumes.grid_name := "Grid";
     RmsInplaceVolumes.job_name := "Volumes";
     RmsInplaceVolumes.params := missing_table_params;
     RmsInplaceVolumes.input := full_input;
     RmsInplaceVolumes.output := stoiip_output;
     RmsInplaceVolumes.variables := shared_variables;
     RmsInplaceVolumes.report := None;
     RmsInplaceVolumes.selectors := full_selectors;
     RmsInplaceVolumes.report_output :=
       {| maps := [PStr "Oil_STOIIP"];
          properties := [PStr "Oil_stoiip"; PStr "PORO"; PStr "PERM"];
          map_location := PStr "clipboard";
          map_subfolders := PList [PStr "Upper"; PStr "Lower"];
          table := Some None |};
     RmsInplaceVolumes.input_variables := shared_definitions |}.

(* ------------------------------------------------------------------ *)
(** ** Running the monad *)

Lemma bind_ok {A B} (r : result A) (a : A) (f : A -> M B) lg :
  r = Ok a -> bind (lift r) f lg = f a lg.
Proof. intros ->. reflexivity. Qed.

Lemma bind_run {A B} (m : M A) (a : A) (f : A -> M B) lg lg' :
  m lg = (Ok a, lg') -> bind m f lg = f a lg'.
Proof. intros H. unfold bind. rewrite H. reflexivity. Qed.

Lemma bind_run_raise {A B} (m : M A) (e : exn) (f : A -> M B) lg lg' :
  m lg = (Raise e, lg') -> bind m f lg = (Raise e, lg').
Proof. intros H. unfold bind. rewrite H. reflexivity. Qed.

(** A run of [bind] that returns went through a run of its first part. *)
Lemma bind_inv {A B} (m : M A) (f : A -> M B) lg b lg' :
  bind m f lg = (Ok b, lg') ->
  exists a lg1, m lg = (Ok a, lg1) /\ f a lg1 = (Ok b, lg').
Proof.
  unfold bind. destruct (m lg) as [[a | e] lg1]; intros H.
  - exists a, lg1. split; [reflexivity | exact H].
  - discriminate H.
Qed.

Lemma lift_inv {A} (r : result A) lg a lg' :
  lift r lg = (Ok a, lg') -> r = Ok a /\ lg' = lg.
Proof. unfold lift. intros H. inversion H. split; reflexivity. Qed.

Lemma ret_inv {A} (x : A) lg a lg' :
  ret x lg = (Ok a, lg') -> a = x /\ lg' = lg.
Proof. unfold ret. intros H. inversion H. split; reflexivity. Qed.

Lemma for_each_app {X S} (xs ys : list X) (body : X -> S -> M S) s lg :
  for_each (xs ++ ys) body s lg =
  bind (for_each xs body s) (for_each ys body) lg.
Proof.
  revert s lg. induction xs as [| x xs IH]; intros s lg; simpl.
  - unfold bind, ret. destruct (for_each ys body s lg); reflexivity.
  - unfold bind. destruct (body x s lg) as [[s1 | e] lg1].
    + rewrite IH. reflexivity.
    + reflexivity.
Qed.

(* ------------------------------------------------------------------ *)
(** ** Strings *)

Lemma append_nonempty_r (a b : string) : b <> "" -> a ++ b <> "".
Proof.
  intros Hb. destruct a as [| c a]; simpl; [exact Hb | discriminate].
Qed.

(* ------------------------------------------------------------------ *)
(** ** The prefix builder *)

Lemma define_prefixes_run out_input prefix gas oil lg :
  py_item out_input "Prefix" = Ok (PStr prefix) ->
  py_item out_input "UseGas" = Ok gas ->
  py_item out_input "UseOil" = Ok oil ->
  _define_prefixes out_input lg =
  (Ok (map PStr (prefixes_of prefix (truthy gas) (truthy oil))), lg).
Proof.
  intros HP HG HO. unfold _define_prefixes, bind, lift, ret.
  rewrite HP, HG, HO. simpl py_eq.
  unfold prefixes_of, prefix_base.
  destruct (String.eqb prefix "") eqn:E; simpl negb; cbv iota.
  - apply String.eqb_eq in E. subst prefix.
    destruct (truthy gas), (truthy oil); reflexivity.
  - destruct (truthy gas), (truthy oil); reflexivity.
Qed.

Lemma prefixes_of_nonempty prefix g o p :
  In p (prefixes_of prefix g o) -> p <> "".
Proof.
  unfold prefixes_of. intros H. apply in_app_or in H.
  destruct H as [H | H]; [destruct g | destruct o]; simpl in H;
    try contradiction; destruct H as [<- | []];
    apply append_nonempty_r; discriminate.
Qed.

(** C4.  With [Prefix] a string and the two flags read, [_define_prefixes]
    returns, without raising or logging a warning, the entry
    [base + "Gas_"] when [UseGas] is true followed by the entry
    [base + "Oil_"] when [UseOil] is true, where [base] is [Prefix + "_"]
    for a non-empty [Prefix] and empty otherwise; so the empty sequence
    when both flags are false. *)
Theorem define_prefixes_spec out_input prefix gas oil lg :
  py_item out_input "Prefix" = Ok (PStr prefix) ->
  py_item out_input "UseGas" = Ok (PBool gas) ->
  py_item out_input "UseOil" = Ok (PBool oil) ->
  _define_prefixes out_input lg =
  (Ok (map PStr
         ((if gas
           then [((if String.eqb prefix "" then "" else prefix ++ "_")
                  ++ "Gas_")%string]
           else []) ++
          (if oil
           then [((if String.eqb prefix "" then "" else prefix ++ "_")
                  ++ "Oil_")%string]
           else []))%list),
   lg).
Proof.
  intros HP HG HO.
  exact (define_prefixes_run out_input prefix _ _ lg HP HG HO).
Qed.

(** The three runs the specification lists for the prefix builder. *)
Lemma define_prefixes_spec_witness :
  _define_prefixes (prefix_config "" true true) [] =
    (Ok [PStr "Gas_"; PStr "Oil_"], []) /\
  _define_prefixes (prefix_config "X" true true) [] =
    (Ok [PStr "X_Gas_"; PStr "X_Oil_"], []) /\
  _define_prefixes (prefix_config "X" false false) [] = (Ok [], []).
Proof.
  split; [| split].
  - apply (define_prefixes_spec (prefix_config "" true true) "" true true []);
      reflexivity.
  - apply (define_prefixes_spec (prefix_config "X" true true) "X" true true []);
      reflexivity.
  - apply (define_prefixes_spec (prefix_config "X" false false)
             "X" false false []); reflexivity.
Defined.

(* ------------------------------------------------------------------ *)
(** ** The output resolver *)

Lemma output_step_run c prfx ps ms lg :
  calc_ok c ->
  output_step c (PStr prfx) (ps, ms) lg =
  (Ok ((ps ++ if calc_flag c "CreateProperty"
              then [PStr (prfx ++ lower (calc_type c))] else [])%list,
       (ms ++ if calc_flag c "CreateZoneMap"
              then [PStr (prfx ++ upper (calc_type c))] else [])%list),
   lg).
Proof.
  intros [[ty HT] [[cp HP] [cz HZ]]].
  unfold output_step, calc_flag, calc_type, bind, lift, ret.
  rewrite HP, HZ, HT.
  destruct (truthy cp), (truthy cz); simpl;
    rewrite ?app_nil_r; reflexivity.
Qed.

Lemma output_inner_run c prefixes : forall ps ms lg,
  calc_ok c ->
  for_each (map PStr prefixes) (output_step c) (ps, ms) lg =
  (Ok ((ps ++ if calc_flag c "CreateProperty"
              then map (fun prfx => PStr (prfx ++ lower (calc_type c)))
                     prefixes
              else [])%list,
       (ms ++ if calc_flag c "CreateZoneMap"
              then map (fun prfx => PStr (prfx ++ upper (calc_type c)))
                     prefixes
              else [])%list),
   lg).
Proof.
  induction prefixes as [| p prefixes IH]; intros ps ms lg Hc; simpl.
  - unfold ret.
    destruct (calc_flag c "CreateProperty"), (calc_flag c "CreateZoneMap");
      rewrite !app_nil_r; reflexivity.
  - rewrite (bind_run _ _ _ _ _ (output_step_run c p ps ms lg Hc)).
    rewrite IH by exact Hc.
    destruct (calc_flag c "CreateProperty"), (calc_flag c "CreateZoneMap");
      simpl; rewrite <- ?app_assoc; reflexivity.
Qed.

Lemma output_loop_run prefixes calcs : forall ps ms lg,
  Forall calc_ok calcs ->
  for_each calcs
    (fun c => for_each (map PStr prefixes) (output_step c)) (ps, ms) lg =
  (Ok ((ps ++ property_names prefixes calcs)%list,
       (ms ++ map_names prefixes calcs)%list),
   lg).
Proof.
  induction calcs as [| c calcs IH]; intros ps ms lg Hall; simpl.
  - unfold ret. rewrite !app_nil_r. reflexivity.
  - inversion Hall as [| c' calcs' Hc Hrest]; subst.
    rewrite (bind_run _ _ _ _ _ (output_inner_run c prefixes ps ms lg Hc)).
    rewrite IH by exact Hrest.
    unfold property_names, map_names, names_of. simpl flat_map.
    rewrite !app_assoc. reflexivity.
Qed.

(** With no prefix the loop body is never entered, whatever the
    calculations are. *)
Lemma output_loop_no_prefix (calcs : list pyval) : forall st lg,
  for_each calcs (fun c => for_each [] (output_step c)) st lg = (Ok st, lg).
Proof.
  induction calcs as [| c calcs IH]; intros st lg; simpl.
  - reflexivity.
  - unfold bind, ret. apply IH.
Qed.

Lemma define_output_run
  out_input selectors prefix gas oil loc calcs zone filters lg :
  py_item out_input "Prefix" = Ok (PStr prefix) ->
  py_item out_input "UseGas" = Ok gas ->
  py_item out_input "UseOil" = Ok oil ->
  py_item out_input "MapOutput" = Ok (PStr loc) ->
  py_item out_input "Calculations" = Ok (PList calcs) ->
  Forall calc_ok calcs ->
  py_item selectors "Zone" = Ok zone ->
  py_item zone "filters" = Ok filters ->
  _define_output out_input selectors lg =
  (Ok {| maps :=
           map_names (prefixes_of prefix (truthy gas) (truthy oil)) calcs;
         properties :=
           property_names (prefixes_of prefix (truthy gas) (truthy oil)) calcs;
         map_location := PStr (lower loc);
         map_subfolders := filters;
         table := None |},
   lg).
Proof.
  intros HP HG HO HM HC Hall HZ HF. unfold _define_output.
  rewrite (bind_ok _ _ _ _ HM). simpl py_lower.
  rewrite (bind_ok _ _ _ _ eq_refl).
  rewrite (bind_ok _ _ _ _ HC).
  rewrite (bind_run _ _ _ _ _ (define_prefixes_run _ _ _ _ lg HP HG HO)).
  simpl py_iter. rewrite (bind_ok _ _ _ _ eq_refl).
  rewrite (bind_run _ _ _ _ _ (output_loop_run _ calcs [] [] lg Hall)).
  simpl app.
  rewrite (bind_ok _ _ _ _ HZ), (bind_ok _ _ _ _ HF). reflexivity.
Qed.

(** C3 (as amended).  For an output configuration with its fields, the
    [Type] of every calculation an ASCII string, and a selector mapping
    with the zone filters, [_define_output] appends
    [prefix + lowercase(Type)] to [properties] exactly when
    [CreateProperty] is true and [prefix + uppercase(Type)] to [maps]
    exactly when [CreateZoneMap] is true, for each combination of
    calculation and prefix, in calculation-major, prefix-minor order.  The
    prefix is taken as it is: only [Type] changes case. *)
Theorem define_output_spec
  out_input selectors prefix gas oil loc calcs zone filters lg :
  py_item out_input "Prefix" = Ok (PStr prefix) ->
  py_item out_input "UseGas" = Ok gas ->
  py_item out_input "UseOil" = Ok oil ->
  py_item out_input "MapOutput" = Ok (PStr loc) ->
  py_item out_input "Calculations" = Ok (PList calcs) ->
  Forall calc_ok calcs ->
  ascii_types calcs ->
  py_item selectors "Zone" = Ok zone ->
  py_item zone "filters" = Ok filters ->
  let prefixes := prefixes_of prefix (truthy gas) (truthy oil) in
  exists plan,
    _define_output out_input selectors lg = (Ok plan, lg) /\
    properties plan =
      flat_map
        (fun c =>
           if calc_flag c "CreateProperty"
           then map (fun prfx => PStr (prfx ++ lower (calc_type c))) prefixes
           else [])
        calcs /\
    maps plan =
      flat_map
        (fun c =>
           if calc_flag c "CreateZoneMap"
           then map (fun prfx => PStr (prfx ++ upper (calc_type c))) prefixes
           else [])
        calcs.
Proof.
  intros HP HG HO HM HC Hall Hascii HZ HF prefixes.
  eexists. split; [| split].
  - exact (define_output_run _ _ _ _ _ _ _ _ _ lg HP HG HO HM HC Hall HZ HF).
  - reflexivity.
  - reflexivity.
Qed.

Lemma define_output_spec_witness :
  exists plan,
    _define_output stoiip_output (zone_selectors (PList [PStr "Upper"])) [] =
      (Ok plan, []) /\
    properties plan = [PStr "Oil_stoiip"] /\
    maps plan = [PStr "Oil_STOIIP"].
Proof.
  apply (define_output_spec stoiip_output
           (zone_selectors (PList [PStr "Upper"]))
           "" (PBool false) (PBool true) "Clipboard" [stoiip_calculation]
           (zone_filters (PList [PStr "Upper"])) (PList [PStr "Upper"]) []);
    try reflexivity.
  - constructor; [| constructor].
    split; [| split]; eexists; reflexivity.
  - constructor; [reflexivity | constructor].
Defined.

(** C3 fails as stated: on the specification's own run the single map name
    is [Oil_STOIIP], with the prefix in its own case, not [OIL_STOIIP]. *)
Lemma define_output_stoiip_counterexample :
  match fst (_define_output stoiip_output
               (zone_selectors (PList [PStr "Upper"])) []) with
  | Ok plan =>
      properties plan = [PStr "Oil_stoiip"] /\
      maps plan = [PStr "Oil_STOIIP"] /\
      maps plan <> [PStr "OIL_STOIIP"]
  | Raise _ => False
  end.
Proof.
  simpl. split; [reflexivity | split; [reflexivity | discriminate]].
Qed.

Lemma names_of_prefixed flag case prefix g o calcs :
  Forall (prefixed (prefixes_of prefix g o))
    (names_of flag case (prefixes_of prefix g o) calcs).
Proof.
  apply Forall_forall. intros e He.
  unfold names_of in He. apply in_flat_map in He.
  destruct He as [c [_ He]].
  destruct (calc_flag c flag); [| contradiction].
  apply in_map_iff in He. destruct He as [p [<- Hp]].
  exists p, (case (calc_type c)). split; [exact Hp | split].
  - exact (prefixes_of_nonempty _ _ _ _ Hp).
  - reflexivity.
Qed.

(** C5.  With both [UseGas] and [UseOil] false, [_define_output] returns
    empty [maps] and [properties] whatever the calculations hold, flags
    included; and for calculations with their fields every entry of [maps]
    and of [properties] is a non-empty prefix of the prefix set followed by
    a suffix. *)
Theorem define_output_prefix_invariant
  out_input selectors prefix gas oil loc calculations calcs zone filters lg :
  py_item out_input "Prefix" = Ok (PStr prefix) ->
  py_item out_input "UseGas" = Ok gas ->
  py_item out_input "UseOil" = Ok oil ->
  py_item out_input "MapOutput" = Ok (PStr loc) ->
  py_item out_input "Calculations" = Ok calculations ->
  py_iter calculations = Ok calcs ->
  py_item selectors "Zone" = Ok zone ->
  py_item zone "filters" = Ok filters ->
  (truthy gas = false -> truthy oil = false ->
   exists plan,
     _define_output out_input selectors lg = (Ok plan, lg) /\
     maps plan = [] /\ properties plan = []) /\
  (Forall calc_ok calcs ->
   exists plan,
     _define_output out_input selectors lg = (Ok plan, lg) /\
     Forall (prefixed (prefixes_of prefix (truthy gas) (truthy oil)))
       (maps plan) /\
     Forall (prefixed (prefixes_of prefix (truthy gas) (truthy oil)))
       (properties plan)).
Proof.
  intros HP HG HO HM HC HI HZ HF.
  assert (Hrun : forall (P : collated -> Prop),
             (forall st,
                 for_each calcs
                   (fun c =>
                      for_each
                        (map PStr
                           (prefixes_of prefix (truthy gas) (truthy oil)))
                        (output_step c))
                   ([], []) lg = (Ok st, lg) ->
                 P {| maps := snd st; properties := fst st;
                      map_location := PStr (lower loc);
                      map_subfolders := filters; table := None |}) ->
             (exists st,
                 for_each calcs
                   (fun c =>
                      for_each
                        (map PStr
                           (prefixes_of prefix (truthy gas) (truthy oil)))
                        (output_step c))
                   ([], []) lg = (Ok st, lg)) ->
             exists plan,
               _define_output out_input selectors lg = (Ok plan, lg) /\
               P plan).
  { intros P HPst [st Hst]. eexists. split; [| exact (HPst st Hst)].
    unfold _define_output.
    rewrite (bind_ok _ _ _ _ HM). simpl py_lower.
    rewrite (bind_ok _ _ _ _ eq_refl).
    rewrite (bind_ok _ _ _ _ HC).
    rewrite (bind_run _ _ _ _ _ (define_prefixes_run _ _ _ _ lg HP HG HO)).
    rewrite (bind_ok _ _ _ _ HI).
    rewrite (bind_run _ _ _ _ _ Hst). destruct st as [ps ms].
    rewrite (bind_ok _ _ _ _ HZ), (bind_ok _ _ _ _ HF). reflexivity. }
  split.
  - intros Hg Ho. rewrite Hg, Ho in Hrun.
    apply (Hrun (fun plan => maps plan = [] /\ properties plan = [])).
    + intros st Hst. simpl in Hst.
      rewrite output_loop_no_prefix in Hst. inversion Hst. split; reflexivity.
    + exists ([], []). apply output_loop_no_prefix.
  - intros Hall.
    apply (Hrun (fun plan =>
                   Forall (prefixed _) (maps plan) /\
                   Forall (prefixed _) (properties plan))).
    + intros st Hst. rewrite output_loop_run in Hst by exact Hall.
      inversion Hst. simpl. split; apply names_of_prefixed.
    + eexists. apply output_loop_run. exact Hall.
Qed.

Lemma define_output_prefix_invariant_witness :
  exists plan,
    _define_output no_phase_output (zone_selectors (PList [PStr "Upper"])) [] =
      (Ok plan, []) /\
    maps plan = [] /\ properties plan = [].
Proof.
  apply (define_output_prefix_invariant no_phase_output
           (zone_selectors (PList [PStr "Upper"]))
           "Vol" (PBool false) (PBool false) "Clipboard"
           (PList [stoiip_calculation; stoiip_calculation])
           [stoiip_calculation; stoiip_calculation]
           (zone_filters (PList [PStr "Upper"])) (PList [PStr "Upper"]) []);
    reflexivity.
Defined.

(* ------------------------------------------------------------------ *)
(** ** The variable resolver *)

Lemma dict_get_set_same {K V} (keq : K -> K -> bool) k (v : V) d :
  keq k k = true -> dict_get keq k (dict_set keq k v d) = Some v.
Proof.
  intros Hk. induction d as [| [k' v'] d IH]; simpl.
  - rewrite Hk. reflexivity.
  - destruct (keq k k') eqn:E; simpl; rewrite E; [reflexivity | exact IH].
Qed.

Lemma var_get_set (n : string) v defs :
  var_get (PStr n) (var_set (PStr n) v defs) = Some v.
Proof.
  apply dict_get_set_same. simpl. apply String.eqb_refl.
Qed.

Lemma variable_step_data_input
  variable name source tv di first p applies defs recorded lg :
  py_item variable "Name" = Ok name ->
  hashable name = true ->
  py_item variable "InputSource" = Ok source ->
  py_item variable "TableValues" = Ok tv ->
  py_item variable "DataInput" = Ok di ->
  truthy di = true ->
  py_index di 0 = Ok first ->
  py_index first (-1) = Ok p ->
  py_item variable "InputType" = Ok applies ->
  variable_step variable (defs, recorded) lg =
  (Ok (var_set name (linked_definition applies p) defs,
       record_property p recorded),
   lg).
Proof.
  intros HN Hh HS HT HD Ht H0 H1 HA.
  unfold variable_step, bind, lift, ret, record_property.
  rewrite HN, HS, HT, HD, Ht, H0, H1, HA, Hh.
  destruct (py_in p recorded); reflexivity.
Qed.

(** The two loops of [_define_variables] visit the variables of all groups
    in one sequence. *)
Lemma variables_loop_flat (d : list (string * pyval)) groups :
  Forall2 (fun kv vs => py_iter (snd kv) = Ok vs) d groups ->
  forall st lg,
    for_each (dict_values d)
      (fun var_group st =>
         variables <~ py_iter var_group ;;
         for_each variables variable_step st)
      st lg =
    for_each (List.concat groups) variable_step st lg.
Proof.
  induction 1 as [| kv vs d groups Hkv _ IH]; intros st lg; simpl.
  - reflexivity.
  - rewrite for_each_app. unfold bind at 1. unfold bind at 1.
    unfold lift at 1. rewrite Hkv. unfold bind at 2.
    destruct (for_each vs variable_step st lg) as [[st1 | e] lg1].
    + apply IH.
    + reflexivity.
Qed.

Lemma define_variables_flat d groups lg :
  Forall2 (fun kv vs => py_iter (snd kv) = Ok vs) d groups ->
  _define_variables (PDict d) lg =
  for_each (List.concat groups) variable_step ([], []) lg.
Proof.
  intros H. unfold _define_variables. simpl py_values.
  rewrite (bind_ok _ _ _ _ eq_refl). apply variables_loop_flat. exact H.
Qed.

(** C1 (as amended).  When the resolver reaches a variable entry whose
    [DataInput] is non-empty, with the definitions [defs] and the recorded
    properties [recorded] built from the entries before it, it stores for
    the variable's name the values [{property: p}] where [p] is the last
    element of the FIRST element of [DataInput] ([DataInput[0][-1]]),
    appends [p] to the recorded properties if it was not recorded yet, and
    goes on with the entries after it. *)
Theorem define_variables_data_input
  d groups pre variable post n source tv di first p applies
  defs recorded lg lg1 :
  Forall2 (fun kv vs => py_iter (snd kv) = Ok vs) d groups ->
  List.concat groups = (pre ++ variable :: post)%list ->
  for_each pre variable_step ([], []) lg = (Ok (defs, recorded), lg1) ->
  py_item variable "Name" = Ok (PStr n) ->
  py_item variable "InputSource" = Ok source ->
  py_item variable "TableValues" = Ok tv ->
  py_item variable "DataInput" = Ok di ->
  truthy di = true ->
  py_index di 0 = Ok first ->
  py_index first (-1) = Ok p ->
  py_item variable "InputType" = Ok applies ->
  exists defs' recorded',
    _define_variables (PDict d) lg =
      for_each post variable_step (defs', recorded') lg1 /\
    var_get (PStr n) defs' =
      Some (PDict [("applies", applies);
                   ("values", PDict [("property", p)])]) /\
    recorded' = (if py_in p recorded then recorded
                 else (recorded ++ [p])%list).
Proof.
  intros Hd Hsplit Hpre HN HS HT HD Ht H0 H1 HA.
  exists (var_set (PStr n) (linked_definition applies p) defs),
         (record_property p recorded).
  split; [| split].
  - rewrite (define_variables_flat d groups lg Hd), Hsplit, for_each_app.
    rewrite (bind_run _ _ _ _ _ Hpre). simpl for_each.
    rewrite (bind_run _ _ _ _ _
               (variable_step_data_input variable (PStr n) source tv di first
                  p applies defs recorded lg1
                  HN eq_refl HS HT HD Ht H0 H1 HA)).
    reflexivity.
  - apply var_get_set.
  - reflexivity.
Qed.

Lemma define_variables_data_input_witness :
  exists defs' recorded',
    _define_variables (PDict [("Oil", PList [two_inputs_variable])]) [] =
      for_each [] variable_step (defs', recorded') [] /\
    var_get (PStr "Porosity") defs' =
      Some (PDict [("applies", PStr "zone");
                   ("values", PDict [("property", PStr "PORO")])]) /\
    recorded' = [PStr "PORO"].
Proof.
  apply (define_variables_data_input
           [("Oil", PList [two_inputs_variable])] [[two_inputs_variable]]
           [] two_inputs_variable [] "Porosity" (PStr "TABLE") (PList [])
           two_inputs (PList [PStr "a"; PStr "PORO"]) (PStr "PORO")
           (PStr "zone") [] [] [] []); try reflexivity.
  constructor; [reflexivity | constructor].
Defined.

(** C1 fails as stated: with two data inputs the property stored and
    recorded is the last element of the first one ([PORO]), while
    [DataInput[-1][-1]] is [PERM]. *)
Lemma define_variables_last_input_counterexample :
  match py_index two_inputs (-1) with
  | Ok last_input => py_index last_input (-1) = Ok (PStr "PERM")
  | Raise _ => False
  end /\
  match fst (_define_variables
               (PDict [("Oil", PList [two_inputs_variable])]) []) with
  | Ok (defs, recorded) =>
      var_get (PStr "Porosity") defs =
        Some (PDict [("applies", PStr "zone");
                     ("values", PDict [("property", PStr "PORO")])]) /\
      var_get (PStr "Porosity") defs <>
        Some (PDict [("applies", PStr "zone");
                     ("values", PDict [("property", PStr "PERM")])]) /\
      recorded = [PStr "PORO"] /\
      py_in (PStr "PERM") recorded = false
  | Raise _ => False
  end.
Proof.
  split; [reflexivity |].
  simpl. repeat split; try reflexivity. discriminate.
Qed.

(** *** The additional properties *)

Lemma py_in_str s seen : py_in (PStr s) (map PStr seen) = memb s seen.
Proof.
  unfold py_in, memb. induction seen as [| a seen IH]; cbn [map existsb].
  - reflexivity.
  - rewrite IH. reflexivity.
Qed.

Lemma memb_app y seen x :
  memb y (seen ++ [x]) = memb y seen || String.eqb x y.
Proof.
  unfold memb. rewrite existsb_app. simpl.
  rewrite orb_false_r, (String.eqb_sym y x). reflexivity.
Qed.

Lemma filter_filter_skip (P : string -> bool) x l :
  P x = false ->
  filter P (filter (fun y => negb (String.eqb x y)) l) = filter P l.
Proof.
  intros Hx. induction l as [| y l IH]; simpl.
  - reflexivity.
  - destruct (String.eqb x y) eqn:E; simpl.
    + apply String.eqb_eq in E. subst y. rewrite Hx. exact IH.
    + destruct (P y); rewrite IH; reflexivity.
Qed.

Lemma filter_seen_snoc seen x l :
  filter (fun y => negb (memb y (seen ++ [x]))) l =
  filter (fun y => negb (memb y seen))
    (filter (fun y => negb (String.eqb x y)) l).
Proof.
  induction l as [| y l IH]; simpl.
  - reflexivity.
  - rewrite memb_app.
    destruct (String.eqb x y) eqn:E; simpl.
    + rewrite orb_true_r. simpl. exact IH.
    + rewrite orb_false_r. destruct (memb y seen); simpl; rewrite IH;
        reflexivity.
Qed.

(** Recording the names one by one keeps each at its first occurrence. *)
Lemma record_names_dedup names : forall seen,
  fold_left (fun recorded p => record_property p recorded)
    (map PStr names) (map PStr seen) =
  map PStr (seen ++ filter (fun y => negb (memb y seen)) (dedup names)).
Proof.
  induction names as [| x names IH]; intros seen; simpl.
  - rewrite app_nil_r. reflexivity.
  - unfold record_property at 2. rewrite py_in_str.
    destruct (memb x seen) eqn:E; simpl.
    + rewrite IH. rewrite filter_filter_skip; [reflexivity |].
      rewrite E. reflexivity.
    + replace (map PStr seen ++ [PStr x])%list with (map PStr (seen ++ [x]))
        by (rewrite map_app; reflexivity).
      rewrite IH. rewrite filter_seen_snoc, <- app_assoc. reflexivity.
Qed.

Lemma dedup_In s names : In s (dedup names) <-> In s names.
Proof.
  induction names as [| x names IH]; simpl.
  - tauto.
  - rewrite filter_In, IH. split.
    + intros [H | [H _]]; [left | right]; assumption.
    + intros [H | H]; [left; exact H |].
      destruct (String.eqb x s) eqn:E.
      * left. apply String.eqb_eq. exact E.
      * right. split; [exact H | reflexivity].
Qed.

Lemma dedup_NoDup names : NoDup (dedup names).
Proof.
  induction names as [| x names IH]; simpl.
  - constructor.
  - constructor.
    + rewrite filter_In. intros [_ H]. rewrite String.eqb_refl in H.
      discriminate H.
    + apply NoDup_filter. exact IH.
Qed.

Lemma dedup_once s names :
  In s names -> count_occ string_dec (dedup names) s = 1%nat.
Proof.
  intros H.
  assert (Hle := proj1 (NoDup_count_occ string_dec (dedup names))
                   (dedup_NoDup names) s).
  assert (Hgt := proj1 (count_occ_In string_dec (dedup names) s)
                   (proj2 (dedup_In s names) H)).
  lia.
Qed.

Lemma variable_step_recorded variable defs recorded lg defs' recorded' lg' :
  variable_step variable (defs, recorded) lg = (Ok (defs', recorded'), lg') ->
  recorded' = record_variable recorded variable.
Proof.
  unfold variable_step, record_variable, referenced, record_property,
    bind, lift, ret, raise.
  destruct (py_item variable "Name") as [name |]; [| discriminate].
  destruct (py_item variable "InputSource") as [source |]; [| discriminate].
  destruct (py_item variable "TableValues") as [tv |]; [| discriminate].
  destruct (py_item variable "DataInput") as [di |]; [| discriminate].
  destruct (truthy di).
  - destruct (py_index di 0) as [first |]; [| discriminate].
    destruct (py_index first (-1)) as [p |]; [| discriminate].
    destruct (py_item variable "InputType"); [| discriminate].
    destruct (hashable name); [| discriminate].
    intros H. inversion H. destruct (py_in p recorded); reflexivity.
  - destruct (py_eq source (PStr "REGION_MODEL"));
      destruct (py_item variable "InputType"); try discriminate;
      destruct (hashable name); try discriminate;
      intros H; inversion H; reflexivity.
Qed.

(** A loop that returns has folded what its body does to any part of the
    state the body changes by a function of the element. *)
Lemma for_each_fold {X S T} (body : X -> S -> M S) (f : S -> T)
  (g : T -> X -> T) :
  (forall x s lg s' lg', body x s lg = (Ok s', lg') -> f s' = g (f s) x) ->
  forall xs s lg s' lg',
    for_each xs body s lg = (Ok s', lg') -> f s' = fold_left g xs (f s).
Proof.
  intros Hbody. induction xs as [| x xs IH]; intros s lg s' lg' H; simpl in *.
  - apply ret_inv in H. destruct H as [-> _]. reflexivity.
  - apply bind_inv in H. destruct H as [s1 [lg1 [H1 H2]]].
    rewrite <- (Hbody _ _ _ _ _ H1). exact (IH _ _ _ _ H2).
Qed.

Lemma fold_left_flat_map {X Y T} (g : T -> Y -> T) (h : X -> list Y) xs :
  forall t,
    fold_left (fun t x => fold_left g (h x) t) xs t =
    fold_left g (flat_map h xs) t.
Proof.
  induction xs as [| x xs IH]; intros t; simpl.
  - reflexivity.
  - rewrite fold_left_app. apply IH.
Qed.

Lemma record_variables_references variables : forall recorded,
  fold_left record_variable variables recorded =
  fold_left (fun recorded p => record_property p recorded)
    (references variables) recorded.
Proof.
  induction variables as [| v variables IH]; intros recorded; simpl.
  - reflexivity.
  - rewrite fold_left_app, IH. unfold record_variable.
    destruct (referenced v); reflexivity.
Qed.

(** The recorded properties a run of [_define_variables] returns. *)
Lemma define_variables_recorded variables_input lg defs recorded lg' :
  _define_variables variables_input lg = (Ok (defs, recorded), lg') ->
  recorded =
  fold_left (fun recorded p => record_property p recorded)
    (references (iterated variables_input)) [].
Proof.
  unfold _define_variables, iterated. intros H.
  apply bind_inv in H. destruct H as [groups [lg1 [Hg H]]].
  apply lift_inv in Hg. destruct Hg as [Hg ->]. rewrite Hg.
  assert (Hbody : forall g st lg0 st' lg0',
             (variables <~ py_iter g ;;
              for_each variables variable_step st) lg0 = (Ok st', lg0') ->
             snd st' = fold_left record_variable (group_entries g) (snd st)).
  { intros g st lg0 st' lg0' Hstep.
    apply bind_inv in Hstep. destruct Hstep as [vs [lg2 [Hvs Hstep]]].
    apply lift_inv in Hvs. destruct Hvs as [Hvs ->].
    unfold group_entries. rewrite Hvs.
    apply (for_each_fold variable_step snd record_variable)
      with (lg := lg0) (lg' := lg0'); [| exact Hstep].
    intros v [defs0 rec0] lg3 [defs1 rec1] lg4 Hv. simpl.
    exact (variable_step_recorded _ _ _ _ _ _ _ Hv). }
  pose proof (for_each_fold _ snd
                (fun recorded g =>
                   fold_left record_variable (group_entries g) recorded)
                Hbody _ _ _ _ _ H) as Hf.
  simpl in Hf. rewrite Hf, fold_left_flat_map, record_variables_references.
  reflexivity.
Qed.

Lemma PStr_injective : forall a b, PStr a = PStr b -> a = b.
Proof. intros a b H. inversion H. reflexivity. Qed.

Lemma NoDup_map_PStr names : NoDup names -> NoDup (map PStr names).
Proof.
  induction 1 as [| x names Hx _ IH]; simpl; constructor.
  - intros Hin. apply in_map_iff in Hin. destruct Hin as [y [Hy Hin]].
    apply PStr_injective in Hy. subst y. exact (Hx Hin).
  - exact IH.
Qed.

(** What a run of [__post_init__] that returns went through when it built
    the properties of the export plan. *)
Lemma post_init_properties
  (get_job_arguments : list string -> string -> string -> M pyval)
  (_get_project : pyval -> bool -> M Project)
  project grid_name job_name lg obj lg' :
  RmsInplaceVolumes.__post_init__ get_job_arguments _get_project
    project grid_name job_name lg = (Ok obj, lg') ->
  exists plan additional lg1 lg2,
    _define_output (RmsInplaceVolumes.output obj)
      (PDict (RmsInplaceVolumes.selectors obj)) lg1 = (Ok plan, lg2) /\
    _define_variables (RmsInplaceVolumes.variables obj) lg2 =
      (Ok (RmsInplaceVolumes.input_variables obj, additional), lg') /\
    properties (RmsInplaceVolumes.report_output obj) =
      (properties plan ++ additional)%list /\
    maps (RmsInplaceVolumes.report_output obj) = maps plan.
Proof.
  unfold RmsInplaceVolumes.__post_init__. intros H.
  repeat match type of H with
         | bind (lift _) _ _ = (Ok _, _) =>
             let r := fresh "r" in
             let l := fresh "l" in
             let E := fresh "E" in
             apply bind_inv in H; destruct H as [r [l [E H]]];
             apply lift_inv in E; destruct E as [E ->]
         | bind _ _ _ = (Ok _, _) =>
             let r := fresh "r" in
             let l := fresh "l" in
             let E := fresh "E" in
             apply bind_inv in H; destruct H as [r [l [E H]]]
         end.
  match goal with
  | v : (var_definitions_t * list pyval)%type |- _ =>
      destruct v as [input_vars additional]
  end.
  apply ret_inv in H. destruct H as [-> ->]. simpl.
  eexists _, additional, _, _.
  split; [eassumption | split; [eassumption | split; reflexivity]].
Qed.

(** C6.  The additional properties [_define_variables] returns are the
    property names the variables refer to through [DataInput], each kept
    once, where it is first referred to: no name occurs twice, a name two
    variables refer to occurs exactly once.  [__post_init__] appends them
    as they are to the properties of the export plan, after the prefixed
    names [_define_output] derived from the calculations. *)
Theorem additional_properties_dedup :
  (forall variables_input lg defs additional lg' names,
      _define_variables variables_input lg = (Ok (defs, additional), lg') ->
      references (iterated variables_input) = map PStr names ->
      additional = map PStr (dedup names) /\
      NoDup additional /\
      (forall s, In s names ->
                 count_occ string_dec (dedup names) s = 1%nat)) /\
  (forall (get_job_arguments : list string -> string -> string -> M pyval)
          (_get_project : pyval -> bool -> M Project)
          project grid_name job_name lg obj lg',
      RmsInplaceVolumes.__post_init__ get_job_arguments _get_project
        project grid_name job_name lg = (Ok obj, lg') ->
      exists plan additional lg1 lg2,
        _define_output (RmsInplaceVolumes.output obj)
          (PDict (RmsInplaceVolumes.selectors obj)) lg1 = (Ok plan, lg2) /\
        _define_variables (RmsInplaceVolumes.variables obj) lg2 =
          (Ok (RmsInplaceVolumes.input_variables obj, additional), lg') /\
        properties (RmsInplaceVolumes.report_output obj) =
          (properties plan ++ additional)%list).
Proof.
  split.
  - intros variables_input lg defs additional lg' names Hrun Hnames.
    assert (Hadd : additional = map PStr (dedup names)).
    { rewrite (define_variables_recorded _ _ _ _ _ Hrun), Hnames.
      change (@nil pyval) with (map PStr []).
      rewrite record_names_dedup. simpl.
      f_equal. induction (dedup names) as [| x l IH]; simpl;
        [reflexivity | rewrite IH; reflexivity]. }
    split; [exact Hadd | split].
    + rewrite Hadd. apply NoDup_map_PStr, dedup_NoDup.
    + intros s Hs. exact (dedup_once s names Hs).
  - intros gja gp project grid_name job_name lg obj lg' H.
    destruct (post_init_properties gja gp _ _ _ _ _ _ H)
      as [plan [additional [lg1 [lg2 [H1 [H2 [H3 _]]]]]]].
    exists plan, additional, lg1, lg2.
    split; [exact H1 | split; [exact H2 | exact H3]].
Qed.

Lemma additional_properties_dedup_witness :
  ([PStr "PORO"; PStr "PERM"] = map PStr (dedup ["PORO"; "PERM"; "PORO"]) /\
   NoDup [PStr "PORO"; PStr "PERM"] /\
   (forall s, In s ["PORO"; "PERM"; "PORO"] ->
              count_occ string_dec (dedup ["PORO"; "PERM"; "PORO"]) s
              = 1%nat)) /\
  (exists obj plan additional,
      fst (RmsInplaceVolumes.__post_init__ (host_arguments example_params)
             (host_project example_project)
             (PStr "project") "Grid" "Volumes" []) = Ok obj /\
      properties (RmsInplaceVolumes.report_output obj) =
        (properties plan ++ additional)%list /\
      properties (RmsInplaceVolumes.report_output obj) =
        [PStr "Oil_stoiip"; PStr "PORO"; PStr "PERM"]).
Proof.
  split.
  - apply (proj1 additional_properties_dedup shared_variables []
             shared_definitions [PStr "PORO"; PStr "PERM"] []
             ["PORO"; "PERM"; "PORO"]); reflexivity.
  - destruct (proj2 additional_properties_dedup
                (host_arguments example_params)
                (host_project example_project)
                (PStr "project") "Grid" "Volumes" [] _ _ eq_refl)
      as [plan [additional [lg1 [lg2 [_ [_ Hprops]]]]]].
    eexists _, plan, additional.
    split; [reflexivity | split; [exact Hprops | reflexivity]].
Defined.

(* ------------------------------------------------------------------ *)
(** ** The selector resolver *)

Lemma nth_error_last (l : list pyval) d :
  l <> [] -> nth_error l (pred (List.length l)) = Some (last l d).
Proof.
  induction l as [| x l IH]; intros Hne; [contradiction Hne; reflexivity |].
  destruct l as [| y l].
  - reflexivity.
  - change (nth_error (y :: l) (pred (List.length (y :: l))) =
            Some (last (y :: l) d)).
    apply IH. discriminate.
Qed.

(** [l[-1]] is the last element of a non-empty list. *)
Lemma seq_index_last (l : list pyval) d :
  l <> [] -> seq_index l (-1) = Ok (last l d).
Proof.
  intros Hne. unfold seq_index.
  assert (Hlen : (0 < List.length l)%nat).
  { destruct l; [contradiction Hne; reflexivity | simpl; lia]. }
  change (-1 <? 0) with true. cbv iota.
  replace (0 <=? -1 + Z.of_nat (List.length l)) with true
    by (symmetry; apply Z.leb_le; lia).
  replace (-1 + Z.of_nat (List.length l) <? Z.of_nat (List.length l))
    with true by (symmetry; apply Z.ltb_lt; lia).
  simpl andb. cbv iota.
  replace (Z.to_nat (-1 + Z.of_nat (List.length l)))
    with (pred (List.length l)) by lia.
  rewrite (nth_error_last l d Hne). reflexivity.
Qed.

Lemma sget_sset_same k v d : sget k (sset k v d) = Some v.
Proof. apply dict_get_set_same. apply String.eqb_refl. Qed.

Lemma sget_sset_other k k' v d : k <> k' -> sget k (sset k' v d) = sget k d.
Proof.
  intros Hne. unfold sget, sset.
  induction d as [| [k0 v0] d IH]; simpl.
  - rewrite (proj2 (String.eqb_neq k k') Hne). reflexivity.
  - destruct (String.eqb k' k0) eqn:E; simpl.
    + apply String.eqb_eq in E. subst k0.
      rewrite (proj2 (String.eqb_neq k k') Hne). reflexivity.
    + destruct (String.eqb k k0); [reflexivity | exact IH].
Qed.

Lemma selector_step_ok in_dict key entry selectors lg :
  selector_entry in_dict key = Ok entry ->
  selector_step in_dict key selectors lg = (Ok (sset key entry selectors), lg).
Proof.
  intros H. unfold selector_step, try_except, bind, lift, ret.
  rewrite H. reflexivity.
Qed.

Lemma selector_step_index_error in_dict key selectors lg :
  selector_entry in_dict key = Raise IndexError ->
  selector_step in_dict key selectors lg =
  (Ok selectors, (lg ++ [no_selector key])%list).
Proof.
  intros H. unfold selector_step, try_except, bind, lift, ret, warning.
  rewrite H. reflexivity.
Qed.

(** Only an index error is caught. *)
Lemma selector_step_raise in_dict key selectors lg e :
  selector_entry in_dict key = Raise e -> e <> IndexError ->
  selector_step in_dict key selectors lg = (Raise e, lg).
Proof.
  intros H He. unfold selector_step, try_except, bind, lift, ret.
  rewrite H. destruct e; try reflexivity. contradiction He. reflexivity.
Qed.


Lemma selectors_update_run in_dict zone_names prior lg :
  py_item in_dict "SelectedZoneNames" = Ok zone_names ->
  selectors_update in_dict prior lg =
  (Ok (sset "parameter" (PStr "subgrids")
         (sset "Zone" (PDict [("filters", zone_names)]) prior)),
   lg).
Proof.
  intros H. unfold selectors_update, bind, lift, ret. rewrite H. reflexivity.
Qed.

Lemma zone_shape_update zone_names prior :
  zone_shape zone_names
    (sset "parameter" (PStr "subgrids")
       (sset "Zone" (PDict [("filters", zone_names)]) prior)).
Proof.
  unfold zone_shape. split; [| split].
  - rewrite sget_sset_other by discriminate. apply sget_sset_same.
  - reflexivity.
  - apply sget_sset_same.
Qed.

(** C7.  With [SelectedZoneNames] in the input mapping, the closing update
    maps [Zone] to [{filters: SelectedZoneNames}], an entry without a
    [parameter] subkey, and the top-level key [parameter] to ["subgrids"],
    whatever the selectors held before for these keys; every result of
    [_define_selectors] has this shape; and there is a result whenever the
    reads for [Region] and [Facies] succeed or fail with an index error. *)
Theorem define_selectors_zone in_dict zone_names :
  py_item in_dict "SelectedZoneNames" = Ok zone_names ->
  (forall prior lg,
      exists selectors,
        selectors_update in_dict prior lg = (Ok selectors, lg) /\
        zone_shape zone_names selectors) /\
  (forall lg selectors lg',
      _define_selectors in_dict lg = (Ok selectors, lg') ->
      zone_shape zone_names selectors) /\
  ((forall key, In key ["Region"; "Facies"] ->
                (exists entry, selector_entry in_dict key = Ok entry) \/
                selector_entry in_dict key = Raise IndexError) ->
   forall lg, exists selectors lg',
       _define_selectors in_dict lg = (Ok selectors, lg')).
Proof.
  intros HZ. split; [| split].
  - intros prior lg. eexists. split.
    + exact (selectors_update_run in_dict zone_names prior lg HZ).
    + apply zone_shape_update.
  - intros lg selectors lg' H. unfold _define_selectors in H.
    apply bind_inv in H. destruct H as [prior [lg1 [_ H]]].
    rewrite (selectors_update_run in_dict zone_names prior lg1 HZ) in H.
    inversion H. apply zone_shape_update.
  - intros Hreads lg. unfold _define_selectors. simpl tl.
    assert (Hstep : forall key sel lg0,
               In key ["Region"; "Facies"] ->
               exists sel' lg0',
                 selector_step in_dict key sel lg0 = (Ok sel', lg0')).
    { intros key sel lg0 Hkey.
      destruct (Hreads key Hkey) as [[entry He] | He].
      - eexists _, _. exact (selector_step_ok _ _ _ _ _ He).
      - eexists _, _. exact (selector_step_index_error _ _ _ _ He). }
    destruct (Hstep "Region" [] lg (or_introl eq_refl)) as [s1 [lg1 H1]].
    destruct (Hstep "Facies" s1 lg1 (or_intror (or_introl eq_refl)))
      as [s2 [lg2 H2]].
    assert (Hloop : for_each ["Region"; "Facies"] (selector_step in_dict)
                      [] lg = (Ok s2, lg2)).
    { simpl. rewrite (bind_run _ _ _ _ _ H1), (bind_run _ _ _ _ _ H2).
      reflexivity. }
    rewrite (bind_run _ _ _ _ _ Hloop).
    eexists _, _. apply selectors_update_run. exact HZ.
Qed.

Lemma define_selectors_zone_witness :
  exists selectors lg',
    _define_selectors full_input [] = (Ok selectors, lg') /\
    zone_shape (PList [PStr "Upper"; PStr "Lower"]) selectors.
Proof.
  destruct (define_selectors_zone full_input
              (PList [PStr "Upper"; PStr "Lower"]) eq_refl)
    as [_ [Hshape Hreturns]].
  destruct (Hreturns
              (fun key Hkey =>
                 match Hkey with
                 | or_introl E =>
                     eq_ind "Region"
                       (fun k =>
                          (exists entry,
                              selector_entry full_input k = Ok entry) \/
                          selector_entry full_input k = Raise IndexError)
                       (or_intror eq_refl) key E
                 | or_intror (or_introl E) =>
                     eq_ind "Facies"
                       (fun k =>
                          (exists entry,
                              selector_entry full_input k = Ok entry) \/
                          selector_entry full_input k = Raise IndexError)
                       (or_introl (ex_intro _ _ eq_refl)) key E
                 | or_intror (or_intror F) => match F with end
                 end)
              []) as [selectors [lg' Hrun]].
  exists selectors, lg'. split; [exact Hrun | exact (Hshape _ _ _ Hrun)].
Defined.

Lemma selector_entry_list in_dict key names property :
  py_item in_dict ("Selected" ++ key ++ "Names") = Ok names ->
  py_item in_dict (key ++ "Property") = Ok (PList property) ->
  selector_entry in_dict key =
  match selector_of names property with
  | Some entry => Ok entry
  | None => Raise IndexError
  end.
Proof.
  intros HN HP. unfold selector_entry. rewrite HN, HP.
  destruct property as [| x property].
  - reflexivity.
  - unfold py_index. rewrite (seq_index_last (x :: property) PNone)
      by discriminate. reflexivity.
Qed.

Lemma selector_step_list in_dict key names property selectors lg :
  py_item in_dict ("Selected" ++ key ++ "Names") = Ok names ->
  py_item in_dict (key ++ "Property") = Ok (PList property) ->
  selector_step in_dict key selectors lg =
  (Ok match selector_of names property with
      | Some entry => sset key entry selectors
      | None => selectors
      end,
   (lg ++ selector_warning key property)%list).
Proof.
  intros HN HP.
  pose proof (selector_entry_list in_dict key names property HN HP) as He.
  destruct property as [| x property]; simpl in He.
  - rewrite (selector_step_index_error _ _ _ _ He). reflexivity.
  - rewrite (selector_step_ok _ _ _ _ _ He). simpl selector_warning.
    rewrite app_nil_r. reflexivity.
Qed.

(** C2 (as amended).  For an input mapping that has [SelectedZoneNames]
    and, for [Region] and [Facies], the names and a property list,
    [_define_selectors] does not raise: a selector whose property list is
    empty (the index failure) is left out and a warning is recorded for
    it, a selector with properties is stored with its filters and the last
    property, and [Zone] holds the [SelectedZoneNames] of the input. *)
Theorem define_selectors_index_failure
  in_dict zone_names region_names region_property
  facies_names facies_property lg :
  py_item in_dict "SelectedZoneNames" = Ok zone_names ->
  py_item in_dict "SelectedRegionNames" = Ok region_names ->
  py_item in_dict "RegionProperty" = Ok (PList region_property) ->
  py_item in_dict "SelectedFaciesNames" = Ok facies_names ->
  py_item in_dict "FaciesProperty" = Ok (PList facies_property) ->
  exists selectors,
    _define_selectors in_dict lg =
      (Ok selectors,
       (lg ++ selector_warning "Region" region_property
           ++ selector_warning "Facies" facies_property)%list) /\
    sget "Region" selectors = selector_of region_names region_property /\
    sget "Facies" selectors = selector_of facies_names facies_property /\
    (exists zone, sget "Zone" selectors = Some zone /\
                  py_item zone "filters" = Ok zone_names).
Proof.
  intros HZ HRN HRP HFN HFP. eexists. split.
  - unfold _define_selectors. simpl tl.
    pose (s1 := match selector_of region_names region_property with
                | Some entry => sset "Region" entry []
                | None => []
                end).
    assert (Hloop :
              for_each ["Region"; "Facies"] (selector_step in_dict) [] lg =
              (Ok match selector_of facies_names facies_property with
                  | Some entry => sset "Facies" entry s1
                  | None => s1
                  end,
               ((lg ++ selector_warning "Region" region_property)
                  ++ selector_warning "Facies" facies_property)%list)).
    { simpl for_each.
      rewrite (bind_run _ _ _ _ _
                 (selector_step_list in_dict "Region" region_names
                    region_property [] lg HRN HRP)).
      rewrite (bind_run _ _ _ _ _
                 (selector_step_list in_dict "Facies" facies_names
                    facies_property _ _ HFN HFP)).
      reflexivity. }
    rewrite (bind_run _ _ _ _ _ Hloop).
    rewrite (selectors_update_run in_dict zone_names _ _ HZ).
    rewrite <- app_assoc. reflexivity.
  - destruct region_property, facies_property; simpl;
      (split; [reflexivity | split; [reflexivity |]]);
      eexists; (split; [reflexivity | reflexivity]).
Qed.

Lemma define_selectors_index_failure_witness :
  exists selectors,
    _define_selectors full_input [] =
      (Ok selectors, [no_selector "Region"]) /\
    sget "Region" selectors = None /\
    sget "Facies" selectors =
      Some (PDict [("filters", PList [PStr "Sand"]);
                   ("parameter", PStr "FACIES")]) /\
    (exists zone, sget "Zone" selectors = Some zone /\
                  py_item zone "filters" =
                    Ok (PList [PStr "Upper"; PStr "Lower"])).
Proof.
  apply (define_selectors_index_failure full_input
           (PList [PStr "Upper"; PStr "Lower"])
           (PList [PStr "North"]) []
           (PList [PStr "Sand"]) [PStr "Grid"; PStr "FACIES"] []);
    reflexivity.
Defined.

(** C2 fails as stated: with [RegionProperty] absent the lookup error is
    not caught; the resolver raises it, returns no selectors and records
    no warning. *)
Lemma define_selectors_absent_key_counterexample :
  py_item absent_region_property "RegionProperty" = Raise KeyError /\
  _define_selectors absent_region_property [] = (Raise KeyError, []).
Proof.
  split; reflexivity.
Qed.

(* ------------------------------------------------------------------ *)
(** ** The table loader *)

Lemma get_volumetrics_run report_params report name project lg :
  py_index report_params 0 = Ok report ->
  py_item report "ReportTableName" = Ok (PStr name) ->
  get_volumetrics report_params project lg =
  match dict_get String.eqb name (volumetric_tables project) with
  | Some t =>
      if has_column "REAL" (rename RENAME_VOLUMES t)
      then (Ok (Some (renamed_without_real t)), lg)
      else (Ok None, (lg ++ [no_table])%list)
  | None => (Ok None, (lg ++ [no_table])%list)
  end.
Proof.
  intros H0 HN.
  unfold get_volumetrics, try_except, bind, lift, ret, warning.
  rewrite H0, HN. unfold table_item, drop, renamed_without_real.
  destruct (dict_get String.eqb name (volumetric_tables project)) as [t |].
  - destruct (has_column "REAL" (rename RENAME_VOLUMES t)); reflexivity.
  - reflexivity.
Qed.


(** C8 (as amended).  For a report configuration whose first entry names
    a table, [get_volumetrics] returns the named table with the rename
    table applied and the [REAL] column dropped when the table exists and
    has a [REAL] column after the rename, and [None] when the name is not
    a key of [project.volumetric_tables]; the missing table is not fatal:
    the lookup error is caught and a warning is logged. *)
Theorem get_volumetrics_table report_params report name project lg :
  py_index report_params 0 = Ok report ->
  py_item report "ReportTableName" = Ok (PStr name) ->
  (forall t,
      dict_get String.eqb name (volumetric_tables project) = Some t ->
      has_column "REAL" (rename RENAME_VOLUMES t) = true ->
      get_volumetrics report_params project lg =
        (Ok (Some (filter (fun col => negb (String.eqb (fst col) "REAL"))
                     (rename RENAME_VOLUMES t))),
         lg)) /\
  (dict_get String.eqb name (volumetric_tables project) = None ->
   table_item project (PStr name) = Raise KeyError /\
   get_volumetrics report_params project lg =
     (Ok None, (lg ++ [Warning "No volume table attached" []])%list)).
Proof.
  intros H0 HN. split.
  - intros t Ht Hreal.
    rewrite (get_volumetrics_run _ _ _ project lg H0 HN), Ht, Hreal.
    reflexivity.
  - intros Hnone. split.
    + unfold table_item. rewrite Hnone. reflexivity.
    + rewrite (get_volumetrics_run _ _ _ project lg H0 HN), Hnone.
      reflexivity.
Qed.

Lemma get_volumetrics_table_witness :
  get_volumetrics (report_naming "Volumes") example_project [] =
    (Ok (Some [("ZONE", [PStr "Upper"; PStr "Lower"]);
               ("STOIIP_OIL", [PInt 120; PInt 80])]),
     []) /\
  get_volumetrics (report_naming "Missing") example_project [] =
    (Ok None, [Warning "No volume table attached" []]).
Proof.
  split.
  - apply (proj1 (get_volumetrics_table (report_naming "Volumes")
                    (PDict [("ReportTableName", PStr "Volumes")]) "Volumes"
                    example_project [] eq_refl eq_refl) volumes_table);
      reflexivity.
  - apply (proj2 (get_volumetrics_table (report_naming "Missing")
                    (PDict [("ReportTableName", PStr "Missing")]) "Missing"
                    example_project [] eq_refl eq_refl)).
    reflexivity.
Defined.

(** C8 fails as stated: an empty report configuration makes the loader
    raise an index error, and a table that exists but has no [REAL] column
    after the rename comes back as [None]. *)
Lemma get_volumetrics_counterexample :
  get_volumetrics (PList []) example_project [] = (Raise IndexError, []) /\
  table_item example_project (PStr "ZoneOnly") = Ok zone_only_table /\
  get_volumetrics (report_naming "ZoneOnly") example_project [] =
    (Ok None, [Warning "No volume table attached" []]).
Proof.
  split; [| split]; reflexivity.
Qed.

(** C9.  When the named table exists but has no column labelled [REAL]
    after the rename, dropping [REAL] raises the lookup error, the handler
    of the missing table catches it, and [get_volumetrics] returns [None]
    with the same warning instead of the table. *)
Theorem get_volumetrics_no_real_column
  report_params report name project t lg :
  py_index report_params 0 = Ok report ->
  py_item report "ReportTableName" = Ok (PStr name) ->
  table_item project (PStr name) = Ok t ->
  has_column "REAL" (rename RENAME_VOLUMES t) = false ->
  drop "REAL" (rename RENAME_VOLUMES t) = Raise KeyError /\
  get_volumetrics report_params project lg =
    (Ok None, (lg ++ [Warning "No volume table attached" []])%list).
Proof.
  intros H0 HN Ht Hreal. split.
  - unfold drop. rewrite Hreal. reflexivity.
  - rewrite (get_volumetrics_run _ _ _ project lg H0 HN).
    unfold table_item in Ht.
    destruct (dict_get String.eqb name (volumetric_tables project)) as [t' |];
      [| discriminate Ht].
    inversion Ht. subst t'. rewrite Hreal. reflexivity.
Qed.

Lemma get_volumetrics_no_real_column_witness :
  drop "REAL" (rename RENAME_VOLUMES zone_only_table) = Raise KeyError /\
  get_volumetrics (report_naming "ZoneOnly") example_project [] =
    (Ok None, [Warning "No volume table attached" []]).
Proof.
  apply (get_volumetrics_no_real_column (report_naming "ZoneOnly")
           (PDict [("ReportTableName", PStr "ZoneOnly")]) "ZoneOnly"
           example_project zone_only_table []); reflexivity.
Defined.

(** C10.  With an empty report sequence [get_volumetrics] raises an index
    error, which the handler for lookup errors does not catch, and logs
    nothing; [__post_init__] then raises it too, so no export plan with
    [table == None] is built. *)
Theorem get_volumetrics_empty_report :
  (forall project lg,
      get_volumetrics (PList []) project lg = (Raise IndexError, lg)) /\
  (forall (get_job_arguments : list string -> string -> string -> M pyval)
          (_get_project : pyval -> bool -> M Project)
          project grid_name job_name lg params handle lg1 lg2
          inputs input outputs output variables_list variables,
      get_job_arguments ["Grid models"; grid_name; "Grid"]
        "Volumetrics" job_name lg = (Ok params, lg1) ->
      _get_project project true lg1 = (Ok handle, lg2) ->
      py_item params "Input" = Ok inputs ->
      py_index inputs 0 = Ok input ->
      py_item params "Output" = Ok outputs ->
      py_index outputs 0 = Ok output ->
      py_item params "Variables" = Ok variables_list ->
      py_index variables_list 0 = Ok variables ->
      py_item params "Report" = Ok (PList []) ->
      RmsInplaceVolumes.__post_init__ get_job_arguments _get_project
        project grid_name job_name lg = (Raise IndexError, lg2)).
Proof.
  split.
  - intros project lg. reflexivity.
  - intros gja gp project grid_name job_name lg params handle lg1 lg2
      inputs input outputs output variables_list variables
      Hargs Hproj HI HI0 HO HO0 HV HV0 HR.
    unfold RmsInplaceVolumes.__post_init__.
    rewrite (bind_run _ _ _ _ _ Hargs), (bind_run _ _ _ _ _ Hproj).
    rewrite (bind_ok _ _ _ _ HI), (bind_ok _ _ _ _ HI0).
    rewrite (bind_ok _ _ _ _ HO), (bind_ok _ _ _ _ HO0).
    rewrite (bind_ok _ _ _ _ HV), (bind_ok _ _ _ _ HV0).
    rewrite (bind_ok _ _ _ _ HR).
    apply bind_run_raise. reflexivity.
Qed.

Lemma get_volumetrics_empty_report_witness :
  RmsInplaceVolumes.__post_init__ (host_arguments empty_report_params)
    (host_project example_project) (PStr "project") "Grid" "Volumes" [] =
  (Raise IndexError, []).
Proof.
  apply (proj2 get_volumetrics_empty_report
           (host_arguments empty_report_params) (host_project example_project)
           (PStr "project") "Grid" "Volumes" [] empty_report_params
           example_project [] []
           (PList [full_input]) full_input
           (PList [stoiip_output]) stoiip_output
           (PList [shared_variables]) shared_variables);
    reflexivity.
Defined.

(* ------------------------------------------------------------------ *)
(** ** More on the prefix builder and the output resolver *)

Lemma string_app_assoc (a b c : string) : (a ++ b) ++ c = a ++ (b ++ c).
Proof.
  induction a as [| x a IH]; simpl; [reflexivity | rewrite IH; reflexivity].
Qed.

Lemma string_app_cancel_l (a x y : string) : a ++ x = a ++ y -> x = y.
Proof.
  induction a as [| c a IH]; simpl; intros H.
  - exact H.
  - inversion H. apply IH. assumption.
Qed.

(** Only a string can be compared unequal to [""] and then take ["_"]. *)
Lemma prefix_not_str_raises (v : pyval) :
  (forall s, v <> PStr s) ->
  negb (py_eq v (PStr "")) = true /\ py_add v (PStr "_") = Raise TypeError.
Proof.
  intros Hv. destruct v; try (split; reflexivity).
  contradiction (Hv s). reflexivity.
Qed.

Lemma define_prefixes_inv out_input lg prefixes lg' :
  _define_prefixes out_input lg = (Ok prefixes, lg') ->
  lg' = lg /\
  (List.length prefixes <= 2)%nat /\
  exists prefix gas oil,
    py_item out_input "Prefix" = Ok (PStr prefix) /\
    py_item out_input "UseGas" = Ok gas /\
    py_item out_input "UseOil" = Ok oil /\
    prefixes = map PStr (prefixes_of prefix (truthy gas) (truthy oil)).
Proof.
  intros H.
  destruct (py_item out_input "Prefix") as [v | e] eqn:HP;
    [| unfold _define_prefixes, bind, lift in H; rewrite HP in H;
       discriminate H].
  assert (Hstr : exists prefix, v = PStr prefix).
  { destruct v; try (exfalso; unfold _define_prefixes, bind, lift in H;
                     rewrite HP in H; simpl in H; discriminate H).
    eexists. reflexivity. }
  destruct Hstr as [prefix ->].
  destruct (py_item out_input "UseGas") as [gas | e] eqn:HG.
  - destruct (py_item out_input "UseOil") as [oil | e] eqn:HO.
    + rewrite (define_prefixes_run out_input prefix gas oil lg HP HG HO) in H.
      inversion H. subst. split; [reflexivity | split].
      * rewrite length_map. unfold prefixes_of.
        destruct (truthy gas), (truthy oil); simpl; lia.
      * exists prefix, gas, oil. repeat split; reflexivity.
    + exfalso. unfold _define_prefixes, bind, lift in H.
      rewrite HP, HG, HO in H.
      destruct (negb (py_eq (PStr prefix) (PStr ""))); simpl in H;
        destruct (truthy gas); simpl in H; discriminate H.
  - exfalso. unfold _define_prefixes, bind, lift in H.
    rewrite HP, HG in H.
    destruct (negb (py_eq (PStr prefix) (PStr ""))); simpl in H;
      discriminate H.
Qed.

(** X1.  [_define_prefixes] returns only for a string [Prefix] with both
    flags present; it then has logged nothing and returns the prefixes of
    that string, at most two and all of them strings. *)
Theorem define_prefixes_returns out_input lg prefixes lg' :
  _define_prefixes out_input lg = (Ok prefixes, lg') ->
  lg' = lg /\
  (List.length prefixes <= 2)%nat /\
  exists prefix gas oil,
    py_item out_input "Prefix" = Ok (PStr prefix) /\
    py_item out_input "UseGas" = Ok gas /\
    py_item out_input "UseOil" = Ok oil /\
    prefixes = map PStr (prefixes_of prefix (truthy gas) (truthy oil)).
Proof.
  exact (define_prefixes_inv out_input lg prefixes lg').
Qed.

Lemma define_prefixes_returns_witness :
  @nil logrec = [] /\
  (List.length [PStr "Vol_Gas_"; PStr "Vol_Oil_"] <= 2)%nat /\
  exists prefix gas oil,
    py_item two_phase_output "Prefix" = Ok (PStr prefix) /\
    py_item two_phase_output "UseGas" = Ok gas /\
    py_item two_phase_output "UseOil" = Ok oil /\
    [PStr "Vol_Gas_"; PStr "Vol_Oil_"] =
      map PStr (prefixes_of prefix (truthy gas) (truthy oil)).
Proof.
  exact (define_prefixes_returns two_phase_output []
           [PStr "Vol_Gas_"; PStr "Vol_Oil_"] [] eq_refl).
Defined.

(** X2.  A [Prefix] that is not a string (a prefix left as [None], a
    number) makes [_define_prefixes] raise a type error before it reads the
    flags, so also when no prefix would be built. *)
Theorem define_prefixes_prefix_not_str out_input v lg :
  py_item out_input "Prefix" = Ok v ->
  (forall s, v <> PStr s) ->
  _define_prefixes out_input lg = (Raise TypeError, lg).
Proof.
  intros HP Hv. destruct (prefix_not_str_raises v Hv) as [Hne Hadd].
  unfold _define_prefixes, bind, lift. rewrite HP, Hne, Hadd. reflexivity.
Qed.

Lemma define_prefixes_prefix_not_str_witness :
  _define_prefixes unset_prefix_output [] = (Raise TypeError, []).
Proof.
  apply (define_prefixes_prefix_not_str unset_prefix_output PNone []).
  - reflexivity.
  - intros s. discriminate.
Defined.

(** Two names built from prefixes of one prefix set are equal only for
    the same prefix and the same suffix. *)
Lemma prefix_split_injective prefix g o p1 p2 s1 s2 :
  In p1 (prefixes_of prefix g o) -> In p2 (prefixes_of prefix g o) ->
  p1 ++ s1 = p2 ++ s2 -> p1 = p2 /\ s1 = s2.
Proof.
  unfold prefixes_of. intros H1 H2 Heq.
  assert (Hcases : forall p,
             In p ((if g then [(prefix_base prefix ++ "Gas_")%string] else [])
                   ++ (if o then [(prefix_base prefix ++ "Oil_")%string]
                       else []))%list ->
             p = prefix_base prefix ++ "Gas_" \/
             p = prefix_base prefix ++ "Oil_").
  { intros p Hp. apply in_app_or in Hp.
    destruct Hp as [Hp | Hp]; [destruct g | destruct o]; simpl in Hp;
      try contradiction; destruct Hp as [<- | []]; [left | right];
      reflexivity. }
  destruct (Hcases p1 H1) as [-> | ->], (Hcases p2 H2) as [-> | ->];
    rewrite !string_app_assoc in Heq;
    apply string_app_cancel_l in Heq; simpl in Heq;
    inversion Heq; split; reflexivity.
Qed.

Lemma prefixes_of_NoDup prefix g o : NoDup (prefixes_of prefix g o).
Proof.
  unfold prefixes_of. destruct g, o; simpl; repeat constructor; simpl;
    try tauto.
  intros [H | []]. apply string_app_cancel_l in H. discriminate H.
Qed.

Lemma NoDup_map_in {A B} (f : A -> B) (l : list A) :
  NoDup l ->
  (forall a b, In a l -> In b l -> f a = f b -> a = b) ->
  NoDup (map f l).
Proof.
  induction 1 as [| x l Hx _ IH]; intros Hinj; simpl; constructor.
  - intros Hin. apply in_map_iff in Hin. destruct Hin as [y [Hy Hin]].
    assert (y = x) by (apply Hinj; [right; exact Hin | left; reflexivity
                                   | exact Hy]).
    subst y. exact (Hx Hin).
  - apply IH. intros a b Ha Hb. apply Hinj; right; assumption.
Qed.

Lemma names_of_In flag case prefixes calcs e :
  In e (names_of flag case prefixes calcs) ->
  exists c prfx,
    In c (flagged flag calcs) /\ In prfx prefixes /\
    e = PStr (prfx ++ case (calc_type c)).
Proof.
  unfold names_of, flagged. intros H. apply in_flat_map in H.
  destruct H as [c [Hc He]].
  destruct (calc_flag c flag) eqn:E; [| contradiction].
  apply in_map_iff in He. destruct He as [p [<- Hp]].
  exists c, p. split; [| split; [exact Hp | reflexivity]].
  apply filter_In. split; assumption.
Qed.

(** Distinct suffixes give distinct names. *)
Lemma names_of_NoDup flag case prefix g o calcs :
  NoDup (map (fun c => case (calc_type c)) (flagged flag calcs)) ->
  NoDup (names_of flag case (prefixes_of prefix g o) calcs).
Proof.
  induction calcs as [| c calcs IH]; intros Hnd.
  - constructor.
  - unfold names_of. simpl flat_map. fold (names_of flag case
                                             (prefixes_of prefix g o) calcs).
    unfold flagged in Hnd. simpl filter in Hnd.
    destruct (calc_flag c flag) eqn:E.
    + simpl map in Hnd. apply NoDup_cons_iff in Hnd.
      destruct Hnd as [Hnot Hnd]. apply NoDup_app.
      * apply NoDup_map_in; [apply prefixes_of_NoDup |].
        intros a b Ha Hb Hab. inversion Hab as [Hab'].
        exact (proj1 (prefix_split_injective _ _ _ _ _ _ _ Ha Hb Hab')).
      * apply IH. exact Hnd.
      * intros e He1 He2. apply in_map_iff in He1.
        destruct He1 as [p [<- Hp]].
        apply names_of_In in He2.
        destruct He2 as [c' [p' [Hc' [Hp' Heq]]]].
        inversion Heq as [Heq'].
        destruct (prefix_split_injective _ _ _ _ _ _ _ Hp Hp' Heq')
          as [_ Hs].
        apply Hnot. rewrite Hs.
        exact (in_map (fun c => case (calc_type c)) _ _ Hc').
    + simpl. apply IH. exact Hnd.
Qed.

Lemma names_of_length flag case prefixes calcs :
  List.length (names_of flag case prefixes calcs) =
  (List.length (flagged flag calcs) * List.length prefixes)%nat.
Proof.
  unfold names_of, flagged. induction calcs as [| c calcs IH]; simpl.
  - reflexivity.
  - rewrite length_app, IH. destruct (calc_flag c flag); simpl.
    + rewrite length_map. reflexivity.
    + reflexivity.
Qed.

(** X3.  For calculations whose types are ASCII strings: when those that
    ask for a property have pairwise different lower-cased types, and
    those that ask for a zone map pairwise different upper-cased types,
    [_define_output] returns no name twice: neither in [properties] nor in
    [maps]. *)
Theorem define_output_names_distinct
  out_input selectors prefix gas oil loc calcs zone filters lg :
  py_item out_input "Prefix" = Ok (PStr prefix) ->
  py_item out_input "UseGas" = Ok gas ->
  py_item out_input "UseOil" = Ok oil ->
  py_item out_input "MapOutput" = Ok (PStr loc) ->
  py_item out_input "Calculations" = Ok (PList calcs) ->
  Forall calc_ok calcs ->
  ascii_types calcs ->
  py_item selectors "Zone" = Ok zone ->
  py_item zone "filters" = Ok filters ->
  NoDup (map (fun c => lower (calc_type c))
           (flagged "CreateProperty" calcs)) ->
  NoDup (map (fun c => upper (calc_type c))
           (flagged "CreateZoneMap" calcs)) ->
  exists plan,
    _define_output out_input selectors lg = (Ok plan, lg) /\
    NoDup (properties plan) /\ NoDup (maps plan).
Proof.
  intros HP HG HO HM HC Hall Hascii HZ HF Hprops Hmaps.
  eexists. split.
  - exact (define_output_run _ _ _ _ _ _ _ _ _ lg HP HG HO HM HC Hall HZ HF).
  - simpl. split.
    + apply names_of_NoDup. exact Hprops.
    + apply names_of_NoDup. exact Hmaps.
Qed.

Lemma define_output_names_distinct_witness :
  exists plan,
    _define_output two_phase_output (zone_selectors (PList [PStr "Upper"])) [] =
      (Ok plan, []) /\
    NoDup (properties plan) /\ NoDup (maps plan).
Proof.
  apply (define_output_names_distinct two_phase_output
           (zone_selectors (PList [PStr "Upper"]))
           "Vol" (PBool true) (PBool true) "Clipboard"
           [stoiip_calculation; giip_calculation]
           (zone_filters (PList [PStr "Upper"])) (PList [PStr "Upper"]) []);
    try reflexivity.
  - repeat constructor; eexists; reflexivity.
  - repeat constructor.
  - simpl. repeat constructor; simpl; try tauto.
    intros [H | []]. discriminate H.
  - simpl. repeat constructor; simpl; tauto.
Defined.

(** X4.  [_define_output] returns one property name per prefix for every
    calculation with [CreateProperty] set and one map name per prefix for
    every calculation with [CreateZoneMap] set, no more and no less. *)
Theorem define_output_counts
  out_input selectors prefix gas oil loc calcs zone filters lg :
  py_item out_input "Prefix" = Ok (PStr prefix) ->
  py_item out_input "UseGas" = Ok gas ->
  py_item out_input "UseOil" = Ok oil ->
  py_item out_input "MapOutput" = Ok (PStr loc) ->
  py_item out_input "Calculations" = Ok (PList calcs) ->
  Forall calc_ok calcs ->
  py_item selectors "Zone" = Ok zone ->
  py_item zone "filters" = Ok filters ->
  exists plan,
    _define_output out_input selectors lg = (Ok plan, lg) /\
    List.length (properties plan) =
      (List.length (flagged "CreateProperty" calcs) *
       (Nat.b2n (truthy gas) + Nat.b2n (truthy oil)))%nat /\
    List.length (maps plan) =
      (List.length (flagged "CreateZoneMap" calcs) *
       (Nat.b2n (truthy gas) + Nat.b2n (truthy oil)))%nat.
Proof.
  intros HP HG HO HM HC Hall HZ HF.
  assert (Hlen : List.length (prefixes_of prefix (truthy gas) (truthy oil)) =
                 (Nat.b2n (truthy gas) + Nat.b2n (truthy oil))%nat).
  { unfold prefixes_of. destruct (truthy gas), (truthy oil); reflexivity. }
  eexists. split.
  - exact (define_output_run _ _ _ _ _ _ _ _ _ lg HP HG HO HM HC Hall HZ HF).
  - simpl. unfold property_names, map_names.
    rewrite !names_of_length, Hlen. split; reflexivity.
Qed.

Lemma define_output_counts_witness :
  exists plan,
    _define_output two_phase_output (zone_selectors (PList [PStr "Upper"])) [] =
      (Ok plan, []) /\
    List.length (properties plan) = 4%nat /\
    List.length (maps plan) = 2%nat.
Proof.
  apply (define_output_counts two_phase_output
           (zone_selectors (PList [PStr "Upper"]))
           "Vol" (PBool true) (PBool true) "Clipboard"
           [stoiip_calculation; giip_calculation]
           (zone_filters (PList [PStr "Upper"])) (PList [PStr "Upper"]) []);
    try reflexivity.
  repeat constructor; eexists; reflexivity.
Defined.

(** A loop whose body leaves the log alone leaves it alone. *)
Lemma for_each_log {X S} (body : X -> S -> M S) :
  (forall x s lg s' lg', body x s lg = (Ok s', lg') -> lg' = lg) ->
  forall xs s lg s' lg',
    for_each xs body s lg = (Ok s', lg') -> lg' = lg.
Proof.
  intros Hbody. induction xs as [| x xs IH]; intros s lg s' lg' H; simpl in H.
  - apply ret_inv in H. tauto.
  - apply bind_inv in H. destruct H as [s1 [lg1 [H1 H2]]].
    rewrite (IH _ _ _ _ H2). exact (Hbody _ _ _ _ _ H1).
Qed.










(* ------------------------------------------------------------------ *)
(** ** More on the variable resolver *)

Lemma py_eq_str_l n x : py_eq (PStr n) x = true -> x = PStr n.
Proof.
  destruct x; simpl; try discriminate. intros H.
  apply String.eqb_eq in H. subst. reflexivity.
Qed.

Lemma py_eq_str_r n x : py_eq x (PStr n) = true -> x = PStr n.
Proof.
  destruct x; simpl; try discriminate. intros H.
  apply String.eqb_eq in H. subst. reflexivity.
Qed.

Lemma py_eq_str_neq n x : x <> PStr n -> py_eq (PStr n) x = false.
Proof.
  intros Hne. destruct (py_eq (PStr n) x) eqn:E; [| reflexivity].
  contradiction Hne. exact (py_eq_str_l n x E).
Qed.

(** Storing under another name leaves the definition of [n] alone. *)
Lemma var_get_set_other n k v defs :
  k <> PStr n -> var_get (PStr n) (var_set k v defs) = var_get (PStr n) defs.
Proof.
  intros Hne. unfold var_get, var_set.
  induction defs as [| [k0 v0] defs IH]; cbn [dict_get dict_set].
  - rewrite (py_eq_str_neq n k Hne). reflexivity.
  - destruct (py_eq k k0) eqn:E; cbn [dict_get].
    + destruct (py_eq (PStr n) k0) eqn:E0; [| reflexivity].
      apply py_eq_str_l in E0. subst k0.
      apply py_eq_str_r in E. contradiction.
    + destruct (py_eq (PStr n) k0); [reflexivity | exact IH].
Qed.

(** The keys after an assignment: a new key comes last, a key that is
    present keeps its place. *)
Lemma var_set_keys k v defs :
  map fst (var_set k v defs) = record_property k (map fst defs).
Proof.
  unfold var_set, record_property, py_in.
  induction defs as [| [k0 v0] defs IH]; cbn [dict_set map fst existsb].
  - reflexivity.
  - destruct (py_eq k k0); cbn [map fst orb].
    + reflexivity.
    + rewrite IH. destruct (existsb (fun e => py_eq k e) (map fst defs));
        reflexivity.
Qed.

Lemma variable_step_defs variable defs recorded lg defs' recorded' lg' :
  variable_step variable (defs, recorded) lg = (Ok (defs', recorded'), lg') ->
  defs' = define_variable defs variable /\ lg' = lg.
Proof.
  unfold variable_step, define_variable, var_name, var_definition, var_values,
    referenced, bind, lift, ret, raise.
  destruct (py_item variable "Name") as [name |]; [| discriminate].
  destruct (py_item variable "InputSource") as [source |]; [| discriminate].
  destruct (py_item variable "TableValues") as [tv |]; [| discriminate].
  destruct (py_item variable "DataInput") as [di |]; [| discriminate].
  destruct (truthy di).
  - destruct (py_index di 0) as [first |]; [| discriminate].
    destruct (py_index first (-1)) as [p |]; [| discriminate].
    destruct (py_item variable "InputType"); [| discriminate].
    destruct (hashable name); [| discriminate].
    intros H. inversion H. split; reflexivity.
  - destruct (py_eq source (PStr "REGION_MODEL"));
      destruct (py_item variable "InputType"); try discriminate;
      destruct (hashable name); try discriminate;
      intros H; inversion H; split; reflexivity.
Qed.

(** The definitions a run of [_define_variables] returns. *)
Lemma define_variables_defs variables_input lg defs recorded lg' :
  _define_variables variables_input lg = (Ok (defs, recorded), lg') ->
  defs = fold_left define_variable (iterated variables_input) [] /\ lg' = lg.
Proof.
  unfold _define_variables, iterated. intros H.
  apply bind_inv in H. destruct H as [groups [lg1 [Hg H]]].
  apply lift_inv in Hg. destruct Hg as [Hg ->]. rewrite Hg.
  assert (Hinner : forall vs st lg0 st' lg0',
             for_each vs variable_step st lg0 = (Ok st', lg0') ->
             fst st' = fold_left define_variable vs (fst st) /\ lg0' = lg0).
  { intros vs st lg0 st' lg0' Hvs. split.
    - apply (for_each_fold variable_step fst define_variable)
        with (lg := lg0) (lg' := lg0'); [| exact Hvs].
      intros v [d0 r0] l0 [d1 r1] l1 Hv. simpl.
      exact (proj1 (variable_step_defs _ _ _ _ _ _ _ Hv)).
    - refine (for_each_log variable_step _ vs st lg0 st' lg0' Hvs).
      intros v [d0 r0] l0 [d1 r1] l1 Hv.
      exact (proj2 (variable_step_defs _ _ _ _ _ _ _ Hv)). }
  assert (Hbody : forall g st lg0 st' lg0',
             (variables <~ py_iter g ;;
              for_each variables variable_step st) lg0 = (Ok st', lg0') ->
             fst st' = fold_left define_variable (group_entries g) (fst st) /\
             lg0' = lg0).
  { intros g st lg0 st' lg0' Hstep.
    apply bind_inv in Hstep. destruct Hstep as [vs [lg2 [Hvs Hstep]]].
    apply lift_inv in Hvs. destruct Hvs as [Hvs ->].
    unfold group_entries. rewrite Hvs. exact (Hinner _ _ _ _ _ Hstep). }
  split.
  - pose proof (for_each_fold _ fst
                  (fun defs g =>
                     fold_left define_variable (group_entries g) defs)
                  (fun g st l st' l' Hs => proj1 (Hbody g st l st' l' Hs))
                  _ _ _ _ _ H) as Hf.
    simpl in Hf. rewrite Hf. apply fold_left_flat_map.
  - exact (for_each_log _
             (fun g st l st' l' Hs => proj2 (Hbody g st l st' l' Hs))
             _ _ _ _ _ H).
Qed.

Lemma variable_step_no_data_input
  variable name source tv di applies defs recorded lg :
  py_item variable "Name" = Ok name ->
  hashable name = true ->
  py_item variable "InputSource" = Ok source ->
  py_item variable "TableValues" = Ok tv ->
  py_item variable "DataInput" = Ok di ->
  truthy di = false ->
  py_item variable "InputType" = Ok applies ->
  variable_step variable (defs, recorded) lg =
  (Ok (var_set name
         (PDict [("applies", applies);
                 ("values", if py_eq source (PStr "REGION_MODEL")
                            then PStr "hidden" else tv)])
         defs,
       recorded),
   lg).
Proof.
  intros HN Hh HS HT HD Ht HA.
  unfold variable_step, bind, lift, ret.
  rewrite HN, HS, HT, HD, Ht, HA, Hh.
  destruct (py_eq source (PStr "REGION_MODEL")); reflexivity.
Qed.

(** X7.  When the resolver reaches a variable entry whose [DataInput] is
    empty, it stores for the variable's name the values ["hidden"] if
    [InputSource] is ["REGION_MODEL"] and the entry's own [TableValues]
    otherwise, leaves the recorded properties as they are, and goes on
    with the entries after it. *)
Theorem define_variables_no_data_input
  d groups pre variable post n source tv di applies defs recorded lg lg1 :
  Forall2 (fun kv vs => py_iter (snd kv) = Ok vs) d groups ->
  List.concat groups = (pre ++ variable :: post)%list ->
  for_each pre variable_step ([], []) lg = (Ok (defs, recorded), lg1) ->
  py_item variable "Name" = Ok (PStr n) ->
  py_item variable "InputSource" = Ok source ->
  py_item variable "TableValues" = Ok tv ->
  py_item variable "DataInput" = Ok di ->
  truthy di = false ->
  py_item variable "InputType" = Ok applies ->
  exists defs',
    _define_variables (PDict d) lg =
      for_each post variable_step (defs', recorded) lg1 /\
    var_get (PStr n) defs' =
      Some (PDict [("applies", applies);
                   ("values", if py_eq source (PStr "REGION_MODEL")
                              then PStr "hidden" else tv)]).
Proof.
  intros Hd Hsplit Hpre HN HS HT HD Ht HA.
  eexists. split.
  - rewrite (define_variables_flat d groups lg Hd), Hsplit, for_each_app.
    rewrite (bind_run _ _ _ _ _ Hpre). simpl for_each.
    rewrite (bind_run _ _ _ _ _
               (variable_step_no_data_input variable (PStr n) source tv di
                  applies defs recorded lg1 HN eq_refl HS HT HD Ht HA)).
    reflexivity.
  - apply var_get_set.
Qed.

Lemma define_variables_no_data_input_witness :
  exists defs',
    _define_variables
      (PDict [("Gas", PList [variable_entry "Porosity" "REGION_MODEL"
                               (PList [PInt 1]) (PList []) "region"])]) [] =
      for_each [] variable_step (defs', []) [] /\
    var_get (PStr "Porosity") defs' =
      Some (PDict [("applies", PStr "region"); ("values", PStr "hidden")]).
Proof.
  apply (define_variables_no_data_input
           [("Gas", PList [variable_entry "Porosity" "REGION_MODEL"
                             (PList [PInt 1]) (PList []) "region"])]
           [[variable_entry "Porosity" "REGION_MODEL"
               (PList [PInt 1]) (PList []) "region"]]
           []
           (variable_entry "Porosity" "REGION_MODEL"
              (PList [PInt 1]) (PList []) "region")
           [] "Porosity" (PStr "REGION_MODEL") (PList [PInt 1])
           (PList []) (PStr "region") [] [] [] []); try reflexivity.
  constructor; [reflexivity | constructor].
Defined.

Lemma fold_define_other n post : forall defs,
  (forall w, In w post -> py_item w "Name" <> Ok (PStr n)) ->
  var_get (PStr n) (fold_left define_variable post defs) =
  var_get (PStr n) defs.
Proof.
  induction post as [| w post IH]; intros defs Hpost; simpl.
  - reflexivity.
  - rewrite IH by (intros w' Hw'; apply Hpost; right; exact Hw').
    unfold define_variable. apply var_get_set_other.
    unfold var_name. intros Hname.
    apply (Hpost w (or_introl eq_refl)).
    destruct (py_item w "Name") as [name |]; [| discriminate Hname].
    rewrite Hname. reflexivity.
Qed.

(** X8.  Variables of one name overwrite each other, the last one wins:
    in the definitions a run of [_define_variables] returns, a name holds
    the definition of the last variable entry of that name, in the order
    the groups and their entries are visited. *)
Theorem define_variables_last_wins
  variables_input lg defs recorded lg' pre variable post n :
  _define_variables variables_input lg = (Ok (defs, recorded), lg') ->
  iterated variables_input = (pre ++ variable :: post)%list ->
  py_item variable "Name" = Ok (PStr n) ->
  (forall w, In w post -> py_item w "Name" <> Ok (PStr n)) ->
  var_get (PStr n) defs = Some (var_definition variable).
Proof.
  intros Hrun Hsplit HN Hpost.
  destruct (define_variables_defs _ _ _ _ _ Hrun) as [-> _].
  rewrite Hsplit, fold_left_app. simpl fold_left.
  rewrite (fold_define_other n post _ Hpost).
  unfold define_variable at 1, var_name. rewrite HN. apply var_get_set.
Qed.

Lemma define_variables_last_wins_witness :
  var_get (PStr "Porosity") renamed_definitions =
  Some (PDict [("applies", PStr "region"); ("values", PStr "hidden")]).
Proof.
  apply (define_variables_last_wins renamed_variables []
           renamed_definitions [PStr "PORO"] []
           [variable_entry "Porosity" "TABLE" (PList [])
              (PList [PList [PStr "PORO"]]) "zone";
            variable_entry "Contact" "TABLE" (PList [PInt 1700])
              (PList []) "region"]
           (variable_entry "Porosity" "REGION_MODEL" (PList [PInt 1])
              (PList []) "region")
           [] "Porosity"); try reflexivity.
  intros w [].
Defined.

Lemma record_names_dedup_nil names :
  fold_left (fun recorded p => record_property p recorded)
    (map PStr names) [] =
  map PStr (dedup names).
Proof.
  change (@nil pyval) with (map PStr []).
  rewrite record_names_dedup. simpl. f_equal.
  induction (dedup names) as [| x l IH]; simpl;
    [reflexivity | rewrite IH; reflexivity].
Qed.

Lemma fold_define_keys vs : forall defs,
  map fst (fold_left define_variable vs defs) =
  fold_left (fun recorded p => record_property p recorded)
    (map var_name vs) (map fst defs).
Proof.
  induction vs as [| v vs IH]; intros defs; simpl.
  - reflexivity.
  - rewrite IH. unfold define_variable. rewrite var_set_keys.
    reflexivity.
Qed.

(** X9.  The definitions a run of [_define_variables] returns hold each
    name once, in the order in which the names first occur among the
    variable entries: a later entry of a name changes the definition (X8)
    but not the place of the key. *)
Theorem define_variables_keys
  variables_input lg defs recorded lg' names :
  _define_variables variables_input lg = (Ok (defs, recorded), lg') ->
  map var_name (iterated variables_input) = map PStr names ->
  map fst defs = map PStr (dedup names) /\
  NoDup (map fst defs) /\
  (List.length defs <= List.length (iterated variables_input))%nat.
Proof.
  intros Hrun Hnames.
  destruct (define_variables_defs _ _ _ _ _ Hrun) as [Hdefs _].
  assert (Hkeys : map fst defs = map PStr (dedup names)).
  { rewrite Hdefs, fold_define_keys, Hnames. apply record_names_dedup_nil. }
  split; [exact Hkeys | split].
  - rewrite Hkeys. apply NoDup_map_PStr, dedup_NoDup.
  - rewrite <- (length_map fst defs), Hkeys, length_map.
    rewrite <- (length_map var_name (iterated variables_input)), Hnames,
      length_map.
    clear. induction names as [| x names IH]; simpl; [lia |].
    pose proof (filter_length_le (fun y => negb (String.eqb x y))
                  (dedup names)).
    lia.
Qed.

Lemma define_variables_keys_witness :
  map fst renamed_definitions = map PStr (dedup ["Porosity"; "Contact";
                                                   "Porosity"]) /\
  NoDup (map fst renamed_definitions) /\
  (List.length renamed_definitions <=
   List.length (iterated renamed_variables))%nat.
Proof.
  apply (define_variables_keys renamed_variables [] renamed_definitions
           [PStr "PORO"] [] ["Porosity"; "Contact"; "Porosity"]);
    reflexivity.
Defined.

(** X10.  A linked variable whose first data input is an empty list makes
    [_define_variables] raise an index error when it reaches the entry:
    the resolver has no handler, so nothing is returned for the entries
    before or after it. *)
Theorem define_variables_empty_first_input
  d groups pre variable post name source tv di defs recorded lg lg1 :
  Forall2 (fun kv vs => py_iter (snd kv) = Ok vs) d groups ->
  List.concat groups = (pre ++ variable :: post)%list ->
  for_each pre variable_step ([], []) lg = (Ok (defs, recorded), lg1) ->
  py_item variable "Name" = Ok name ->
  py_item variable "InputSource" = Ok source ->
  py_item variable "TableValues" = Ok tv ->
  py_item variable "DataInput" = Ok di ->
  truthy di = true ->
  py_index di 0 = Ok (PList []) ->
  _define_variables (PDict d) lg = (Raise IndexError, lg1).
Proof.
  intros Hd Hsplit Hpre HN HS HT HD Ht H0.
  rewrite (define_variables_flat d groups lg Hd), Hsplit, for_each_app.
  rewrite (bind_run _ _ _ _ _ Hpre). simpl for_each.
  apply bind_run_raise.
  unfold variable_step, bind, lift. rewrite HN, HS, HT, HD, Ht, H0.
  reflexivity.
Qed.

Lemma define_variables_empty_first_input_witness :
  _define_variables
    (PDict [("Oil", PList [two_inputs_variable; empty_input_variable;
                           two_inputs_variable])]) [] =
  (Raise IndexError, []).
Proof.
  apply (define_variables_empty_first_input
           [("Oil", PList [two_inputs_variable; empty_input_variable;
                           two_inputs_variable])]
           [[two_inputs_variable; empty_input_variable; two_inputs_variable]]
           [two_inputs_variable] empty_input_variable [two_inputs_variable]
           (PStr "Porosity") (PStr "TABLE") (PList []) (PList [PList []])
           [(PStr "Porosity", linked_definition (PStr "zone") (PStr "PORO"))]
           [PStr "PORO"] [] []); try reflexivity.
  constructor; [reflexivity | constructor].
Defined.

(* ------------------------------------------------------------------ *)
(** ** More on the table loader *)



Lemma rename_to_real label :
  String.eqb (rename_label RENAME_VOLUMES label) "REAL" =
  is_realization label.
Proof.
  unfold rename_label, RENAME_VOLUMES, is_realization.
  cbn [dict_get].
  repeat match goal with
         | |- context [if String.eqb label ?k then _ else _] =>
             destruct (String.eqb_spec label k) as [-> | ?];
             [reflexivity |]
         end.
  destruct (String.eqb_spec label "Proj. real.") as [-> | _];
    [contradiction | reflexivity].
Qed.

Lemma filter_map_swap {A B} (P : B -> bool) (f : A -> B) l :
  filter P (map f l) = map f (filter (fun a => P (f a)) l).
Proof.
  induction l as [| a l IH]; simpl.
  - reflexivity.
  - destruct (P (f a)); simpl; rewrite IH; reflexivity.
Qed.

Lemma filter_ext_eq {A} (P Q : A -> bool) l :
  (forall a, P a = Q a) -> filter P l = filter Q l.
Proof.
  intros H. induction l as [| a l IH]; simpl.
  - reflexivity.
  - rewrite H, IH. reflexivity.
Qed.

(** The table handed over, seen from the host table. *)
Lemma renamed_without_real_columns t :
  renamed_without_real t =
  map (fun col => (rename_label RENAME_VOLUMES (fst col), snd col))
    (filter (fun col => negb (is_realization (fst col))) t).
Proof.
  unfold renamed_without_real, rename. rewrite filter_map_swap.
  f_equal. apply filter_ext_eq. intros col. simpl.
  rewrite rename_to_real. reflexivity.
Qed.

(** X12.  A table [get_volumetrics] returns is made of the columns of the
    named host table, in their order and with their cells untouched,
    without the columns labelled ["Proj. real."] or ["REAL"]; each column
    that is kept carries the label the rename table gives it, or its own
    when the table has none. *)
Theorem get_volumetrics_keeps_data report_params project lg volumes lg' :
  get_volumetrics report_params project lg = (Ok (Some volumes), lg') ->
  exists report name t,
    py_index report_params 0 = Ok report /\
    py_item report "ReportTableName" = Ok name /\
    table_item project name = Ok t /\
    map snd volumes =
      map snd (filter (fun col => negb (is_realization (fst col))) t) /\
    map fst volumes =
      map (rename_label RENAME_VOLUMES)
        (filter (fun l => negb (is_realization l)) (map fst t)).
Proof.
  unfold get_volumetrics, try_except, bind, lift, ret, warning.
  destruct (py_index report_params 0) as [report | e] eqn:E0;
    [| destruct e; discriminate].
  destruct (py_item report "ReportTableName") as [name | e] eqn:E1;
    [| destruct e; discriminate].
  destruct (table_item project name) as [t | e] eqn:E2;
    [| destruct e; discriminate].
  unfold drop.
  destruct (has_column "REAL" (rename RENAME_VOLUMES t)); [| discriminate].
  intros H.
  assert (Hv' : volumes = renamed_without_real t)
    by (inversion H; reflexivity).
  clear H. exists report, name, t.
  split; [reflexivity | split; [exact E1 | split; [exact E2 | split]]].
  - rewrite Hv', renamed_without_real_columns, map_map. reflexivity.
  - rewrite Hv', renamed_without_real_columns, map_map, filter_map_swap,
      map_map. reflexivity.
Qed.

Lemma get_volumetrics_keeps_data_witness :
  exists report name t,
    py_index (report_naming "Volumes") 0 = Ok report /\
    py_item report "ReportTableName" = Ok name /\
    table_item example_project name = Ok t /\
    [[PStr "Upper"; PStr "Lower"]; [PInt 120; PInt 80]] =
      map snd (filter (fun col => negb (is_realization (fst col))) t) /\
    ["ZONE"; "STOIIP_OIL"] =
      map (rename_label RENAME_VOLUMES)
        (filter (fun l => negb (is_realization l)) (map fst t)).
Proof.
  exact (get_volumetrics_keeps_data (report_naming "Volumes")
           example_project []
           [("ZONE", [PStr "Upper"; PStr "Lower"]);
            ("STOIIP_OIL", [PInt 120; PInt 80])] [] eq_refl).
Defined.

Lemma rename_label_cases label :
  (In label host_labels /\
   In (rename_label RENAME_VOLUMES label) new_labels) \/
  (~ In label host_labels /\ rename_label RENAME_VOLUMES label = label).
Proof.
  unfold rename_label, RENAME_VOLUMES, host_labels, new_labels.
  cbn [dict_get map fst snd].
  repeat match goal with
         | |- context [if String.eqb label ?k then _ else _] =>
             destruct (String.eqb_spec label k) as [-> | ?];
             [left; split; simpl; tauto |]
         end.
  right. split; [| reflexivity].
  simpl. intros H.
  repeat (destruct H as [H | H]; [symmetry in H; contradiction |]).
  exact H.
Qed.

Lemma rename_label_injective_on_host a b :
  In a host_labels -> In b host_labels ->
  rename_label RENAME_VOLUMES a = rename_label RENAME_VOLUMES b -> a = b.
Proof.
  unfold host_labels, RENAME_VOLUMES. cbn [map fst].
  intros Ha Hb.
  repeat (destruct Ha as [<- | Ha]; [| ]); try contradiction;
    repeat (destruct Hb as [<- | Hb]; [| ]); try contradiction;
    vm_compute; intros H; first [reflexivity | discriminate H].
Qed.

(** X13.  The rename never merges two columns: a host table whose labels
    are pairwise different and use none of the new labels comes out of the
    rename with pairwise different labels. *)
Theorem rename_keeps_labels_distinct (t : DataFrame) :
  NoDup (map fst t) ->
  (forall label, In label (map fst t) -> ~ In label new_labels) ->
  NoDup (map fst (rename RENAME_VOLUMES t)).
Proof.
  intros Hnd Hnew. unfold rename. rewrite map_map. simpl.
  rewrite <- (map_map fst (rename_label RENAME_VOLUMES)).
  apply NoDup_map_in; [exact Hnd |].
  intros a b Ha Hb Hab.
  destruct (rename_label_cases a) as [[Hain Hat] | [Hain Hae]];
    destruct (rename_label_cases b) as [[Hbin Hbt] | [Hbin Hbe]].
  - exact (rename_label_injective_on_host a b Hain Hbin Hab).
  - rewrite Hbe in Hab. rewrite Hab in Hat. contradiction (Hnew b Hb).
  - rewrite Hae in Hab. rewrite <- Hab in Hbt. contradiction (Hnew a Ha).
  - rewrite Hae, Hbe in Hab. exact Hab.
Qed.

Lemma rename_keeps_labels_distinct_witness :
  NoDup (map fst (rename RENAME_VOLUMES volumes_table)).
Proof.
  apply (rename_keeps_labels_distinct volumes_table).
  - simpl. repeat constructor; simpl; intros H;
      repeat (destruct H as [H | H]; try discriminate H); exact H.
  - simpl. intros label Hl.
    repeat (destruct Hl as [<- | Hl]; [vm_compute; intros H;
      repeat (destruct H as [H | H]; try discriminate H); exact H |]).
    contradiction.
Defined.

(* ------------------------------------------------------------------ *)
(** ** More on RmsInplaceVolumes *)

(** What a run of [__post_init__] that returns went through. *)
Lemma post_init_inv
  (get_job_arguments : list string -> string -> string -> M pyval)
  (_get_project : pyval -> bool -> M Project)
  project grid_name job_name lg obj lg' :
  RmsInplaceVolumes.__post_init__ get_job_arguments _get_project
    project grid_name job_name lg = (Ok obj, lg') ->
  exists lg1 lg2 lg3 lg4 lg5 report_params plan additional,
    get_job_arguments ["Grid models"; grid_name; "Grid"]
      "Volumetrics" job_name lg = (Ok (RmsInplaceVolumes.params obj), lg1) /\
    _get_project project true lg1 =
      (Ok (RmsInplaceVolumes.project obj), lg2) /\
    py_item (RmsInplaceVolumes.params obj) "Report" = Ok report_params /\
    get_volumetrics report_params (RmsInplaceVolumes.project obj) lg2 =
      (Ok (RmsInplaceVolumes.report obj), lg3) /\
    _define_selectors (RmsInplaceVolumes.input obj) lg3 =
      (Ok (RmsInplaceVolumes.selectors obj), lg4) /\
    _define_output (RmsInplaceVolumes.output obj)
      (PDict (RmsInplaceVolumes.selectors obj)) lg4 = (Ok plan, lg5) /\
    _define_variables (RmsInplaceVolumes.variables obj) lg5 =
      (Ok (RmsInplaceVolumes.input_variables obj, additional), lg') /\
    RmsInplaceVolumes.report_output obj =
      {| maps := maps plan;
         properties := (properties plan ++ additional)%list;
         map_location := map_location plan;
         map_subfolders := map_subfolders plan;
         table := Some (RmsInplaceVolumes.report obj) |} /\
    RmsInplaceVolumes.grid_name obj = grid_name /\
    RmsInplaceVolumes.job_name obj = job_name.
Proof.
  unfold RmsInplaceVolumes.__post_init__. intros H.
  apply bind_inv in H. destruct H as [params [lg1 [Hargs H]]].
  apply bind_inv in H. destruct H as [handle [lg2 [Hproj H]]].
  apply bind_inv in H. destruct H as [inputs [l [E H]]].
  apply lift_inv in E. destruct E as [HI ->].
  apply bind_inv in H. destruct H as [input [l [E H]]].
  apply lift_inv in E. destruct E as [HI0 ->].
  apply bind_inv in H. destruct H as [outputs [l [E H]]].
  apply lift_inv in E. destruct E as [HO ->].
  apply bind_inv in H. destruct H as [output [l [E H]]].
  apply lift_inv in E. destruct E as [HO0 ->].
  apply bind_inv in H. destruct H as [vlist [l [E H]]].
  apply lift_inv in E. destruct E as [HV ->].
  apply bind_inv in H. destruct H as [variables [l [E H]]].
  apply lift_inv in E. destruct E as [HV0 ->].
  apply bind_inv in H. destruct H as [report_params [l [E H]]].
  apply lift_inv in E. destruct E as [HR ->].
  apply bind_inv in H. destruct H as [report [lg3 [Hrep H]]].
  apply bind_inv in H. destruct H as [selectors [lg4 [Hsel H]]].
  apply bind_inv in H. destruct H as [plan [lg5 [Hout H]]].
  apply bind_inv in H. destruct H as [[defs additional] [lg6 [Hvar H]]].
  apply ret_inv in H. destruct H as [-> ->]. simpl.
  exists lg1, lg2, lg3, lg4, lg5, report_params, plan, additional.
  repeat split; assumption.
Qed.



(* ------------------------------------------------------------------ *)
(** ** The exporter *)

Set Warnings "-notation-for-abbreviation".

Section ExporterFacts.
Import Exporter.
Context {World Config ExportData Surface GridProperty : Type}.
Context (yaml_load : string -> host World Config).
Context (new_ExportData : Config -> string -> host World ExportData).
Context (surface_from_roxar :
           Project -> pyval -> string -> pyval -> host World Surface).
Context (gridproperty_from_roxar :
           Project -> string -> pyval -> host World GridProperty).
Context (export :
           ExportData -> exported Surface GridProperty -> option string ->
           pyval -> string -> string -> host World string).
Context (py_repr : pyval -> string).

Local Notation surface_step' :=
  (surface_step surface_from_roxar export py_repr).
Local Notation export_maps' :=
  (export_maps surface_from_roxar export py_repr).
Local Notation property_step' :=
  (property_step gridproperty_from_roxar export).
Local Notation export_properties' :=
  (export_properties gridproperty_from_roxar export).
Local Notation export_table' := (export_table export).
Local Notation export_collection' :=
  (_export_collection yaml_load new_ExportData surface_from_roxar
     gridproperty_from_roxar export py_repr).

Lemma xbind_inv {A B} (m : X World A) (f : A -> X World B) s b s' :
  xbind m f s = (XOk b, s') ->
  exists a s1, m s = (XOk a, s1) /\ f a s1 = (XOk b, s').
Proof.
  unfold xbind. destruct (m s) as [[a | e] s1]; intros H.
  - exists a, s1. split; [reflexivity | exact H].
  - discriminate H.
Qed.

Lemma xbind_run {A B} (m : X World A) (f : A -> X World B) s a s1 :
  m s = (XOk a, s1) -> xbind m f s = f a s1.
Proof. intros H. unfold xbind. rewrite H. reflexivity. Qed.

Lemma xbind_run_raise {A B} (m : X World A) (f : A -> X World B) s e s1 :
  m s = (XRaise e, s1) -> xbind m f s = (XRaise e, s1).
Proof. intros H. unfold xbind. rewrite H. reflexivity. Qed.

Lemma call_run {A} (h : host World A) w lg r w' :
  h w = (r, w') -> call h (w, lg) = (r, (w', lg)).
Proof. intros H. unfold call. simpl. rewrite H. reflexivity. Qed.

Lemma call_inv {A} (h : host World A) s a s' :
  call h s = (XOk a, s') -> snd s' = snd s.
Proof.
  unfold call. destruct (h (fst s)) as [r w]. intros H. inversion H.
  reflexivity.
Qed.

Lemma xfor_each_app {T S} (xs ys : list T) (body : T -> S -> X World S) c s :
  xfor_each (xs ++ ys) body c s =
  xbind (xfor_each xs body c) (xfor_each ys body) s.
Proof.
  revert c s. induction xs as [| x xs IH]; intros c s; simpl.
  - unfold xbind, xret. reflexivity.
  - unfold xbind. destruct (body x c s) as [[c1 | e] s1].
    + rewrite IH. reflexivity.
    + reflexivity.
Qed.

Lemma exports_in_app l1 l2 :
  exports_in (l1 ++ l2) = (exports_in l1 + exports_in l2)%nat.
Proof. unfold exports_in. rewrite filter_app, length_app. reflexivity. Qed.

Lemma warnings_in_app l1 l2 :
  warnings_in (l1 ++ l2) = (warnings_in l1 + warnings_in l2)%nat.
Proof. unfold warnings_in. rewrite filter_app, length_app. reflexivity. Qed.

Lemma accounted_refl count (s : World * list entry) :
  accounted 0 count s count s.
Proof.
  exists []. rewrite app_nil_r. repeat split. simpl. lia.
Qed.

Lemma accounted_trans n1 n2 c0 (s0 : World * list entry) c1 s1 c2 s2 :
  accounted n1 c0 s0 c1 s1 -> accounted n2 c1 s1 c2 s2 ->
  accounted (n1 + n2) c0 s0 c2 s2.
Proof.
  intros [d1 [Hl1 [Hc1 Hn1]]] [d2 [Hl2 [Hc2 Hn2]]].
  exists (d1 ++ d2)%list. rewrite Hl2, Hl1, app_assoc.
  rewrite exports_in_app, warnings_in_app.
  repeat split; lia.
Qed.

(** A loop whose body handles [k] items each time it returns has handled
    [k] items per element when it returns. *)
Lemma xfor_each_accounted {T} (body : T -> Z -> X World Z) (k : nat) :
  (forall x c s c' s',
      body x c s = (XOk c', s') -> accounted k c s c' s') ->
  forall xs c s c' s',
    xfor_each xs body c s = (XOk c', s') ->
    accounted (List.length xs * k) c s c' s'.
Proof.
  intros Hbody. induction xs as [| x xs IH]; intros c s c' s' H; simpl in H.
  - inversion H. subst. apply accounted_refl.
  - apply xbind_inv in H. destruct H as [c1 [s1 [H1 H2]]].
    simpl List.length. simpl Nat.mul.
    exact (accounted_trans _ _ _ _ _ _ _ _ (Hbody _ _ _ _ _ H1)
             (IH _ _ _ _ H2)).
Qed.

Lemma surface_step_accounted project collection job_name exd map_name
  folder_name count s count' s' :
  surface_step' project collection job_name exd map_name folder_name
    count s = (XOk count', s') ->
  accounted 1 count s count' s'.
Proof.
  unfold surface_step, xbind, xtry, call, log, xret. simpl.
  destruct (surface_from_roxar _ _ _ _ (fst s)) as [[surf | e] w1]; simpl.
  - destruct (export _ _ _ _ _ _ w1) as [[path | e] w2]; simpl.
    + intros H. inversion H. subst.
      eexists [_; _]. simpl. rewrite <- app_assoc.
      repeat split; simpl; lia.
    + destruct (xexn_eqb e (Py KeyError)); intros H; [| discriminate H].
      inversion H. subst.
      eexists [_; _]. simpl. rewrite <- app_assoc.
      repeat split; simpl; lia.
  - destruct (xexn_eqb e (Py KeyError)); intros H; [| discriminate H].
    inversion H. subst.
    eexists [_; _]. simpl. rewrite <- app_assoc.
    repeat split; simpl; lia.
Qed.

Lemma export_maps_accounted project collection job_name exd count s
  count' s' :
  export_maps' project collection job_name exd count s = (XOk count', s') ->
  accounted
    (List.length (maps collection) *
     List.length (group_entries (map_subfolders collection)))
    count s count' s'.
Proof.
  unfold export_maps. apply xfor_each_accounted.
  intros map_name c s0 c' s0' H.
  apply xbind_inv in H. destruct H as [folders [s1 [Hf H]]].
  unfold of_result in Hf. unfold group_entries.
  destruct (py_iter (map_subfolders collection)) as [fs | e];
    [| discriminate Hf].
  inversion Hf. subst.
  replace (List.length folders) with (List.length folders * 1)%nat by lia.
  apply (xfor_each_accounted
           (surface_step' project collection job_name exd map_name) 1)
    with (xs := folders); [| exact H].
  intros f c0 s2 c2 s3 Hs.
  exact (surface_step_accounted _ _ _ _ _ _ _ _ _ _ Hs).
Qed.

Lemma property_step_accounted project parent job_name exd property_name
  count s count' s' :
  property_step' project parent job_name exd property_name count s =
    (XOk count', s') ->
  accounted 1 count s count' s'.
Proof.
  unfold property_step, xbind, xtry, call, log, xret. simpl.
  destruct (gridproperty_from_roxar _ _ _ (fst s)) as [[prop | e] w1]; simpl.
  - destruct (export _ _ _ _ _ _ w1) as [[path | e] w2]; simpl.
    + intros H. inversion H. subst.
      eexists [_; _]. simpl. rewrite <- app_assoc.
      repeat split; simpl; lia.
    + destruct (xexn_eqb e ValueError); intros H; [| discriminate H].
      inversion H. subst.
      eexists [_; _]. simpl. rewrite <- app_assoc.
      repeat split; simpl; lia.
  - destruct (xexn_eqb e ValueError); intros H; [| discriminate H].
    inversion H. subst.
    eexists [_; _]. simpl. rewrite <- app_assoc.
    repeat split; simpl; lia.
Qed.

Lemma export_properties_accounted project collection parent job_name exd
  count s count' s' :
  export_properties' project collection parent job_name exd count s =
    (XOk count', s') ->
  accounted (List.length (properties collection)) count s count' s'.
Proof.
  unfold export_properties. intros H.
  replace (List.length (properties collection))
    with (List.length (properties collection) * 1)%nat by lia.
  apply (xfor_each_accounted
           (property_step' project parent job_name exd) 1)
    with (xs := properties collection); [| exact H].
  intros p c0 s2 c2 s3 Hs.
  exact (property_step_accounted _ _ _ _ _ _ _ _ _ Hs).
Qed.

Lemma export_table_accounted collection parent job_name exd count s
  count' s' :
  export_table' collection parent job_name exd count s = (XOk count', s') ->
  accounted 1 count s count' s'.
Proof.
  unfold export_table, xbind, xtry, xraise, call, log, xret.
  destruct (table collection) as [[volumes |] |]; simpl.
  - destruct (export _ _ _ _ _ _ (fst s)) as [[path | e] w1]; simpl.
    + intros H. inversion H. subst.
      eexists [_]. simpl. repeat split; simpl; lia.
    + destruct (xexn_eqb e (Py KeyError)); intros H; [| discriminate H].
      inversion H. subst.
      eexists [_]. simpl. repeat split; simpl; lia.
  - intros H. inversion H. subst.
    eexists [_]. simpl. repeat split; simpl; lia.
  - intros H. inversion H. subst.
    eexists [_]. simpl. repeat split; simpl; lia.
Qed.

(** What a run of [_export_collection] that returns has logged. *)
Lemma export_collection_inv project collection parent job_name config_path
  w lg w' lg' :
  export_collection' project collection parent job_name config_path (w, lg) =
    (XOk tt, (w', lg')) ->
  exists delta,
    lg' = (lg ++ delta ++
           [exported_objects (Z.of_nat (exports_in delta))])%list /\
    (exports_in delta + warnings_in delta = plan_items collection)%nat.
Proof.
  unfold _export_collection. intros H.
  apply xbind_inv in H. destruct H as [config [s1 [H1 H]]].
  apply call_inv in H1.
  apply xbind_inv in H. destruct H as [exd [s2 [H2 H]]].
  apply call_inv in H2.
  apply xbind_inv in H. destruct H as [c1 [s3 [H3 H]]].
  apply export_maps_accounted in H3.
  apply xbind_inv in H. destruct H as [c2 [s4 [H4 H]]].
  apply export_properties_accounted in H4.
  apply xbind_inv in H. destruct H as [c3 [s5 [H5 H]]].
  apply export_table_accounted in H5.
  destruct (accounted_trans _ _ _ _ _ _ _ _
              (accounted_trans _ _ _ _ _ _ _ _ H3 H4) H5)
    as [delta [Hl [Hc Hn]]].
  unfold log in H. inversion H as [[Hw Hlg]].
  exists delta. split.
  - rewrite Hl, H2, H1. simpl. rewrite Hc, <- app_assoc. reflexivity.
  - unfold plan_items. exact Hn.
Qed.

(** X15.  Every item of the plan is accounted for.  When
    [_export_collection] returns, the log has grown by records among
    which the exports that returned and the warnings are, together, as
    many as the plan has items: one per map and zone folder, one per
    property, one for the table.  The closing record [Exported %i objects]
    carries the number of the exports that returned, so never more than the
    plan has items. *)
Theorem export_collection_accounts
  project collection parent job_name config_path w lg w' lg' :
  export_collection' project collection parent job_name config_path (w, lg) =
    (XOk tt, (w', lg')) ->
  exists delta,
    lg' = (lg ++ delta ++
           [Entry INFO "Exported %i objects"
              [PInt (Z.of_nat (exports_in delta))]])%list /\
    (exports_in delta + warnings_in delta =
     List.length (maps collection) *
     List.length (group_entries (map_subfolders collection)) +
     List.length (properties collection) + 1)%nat /\
    (exports_in delta <= plan_items collection)%nat.
Proof.
  intros H.
  destruct (export_collection_inv _ _ _ _ _ _ _ _ _ H) as [delta [Hl Hn]].
  exists delta. split; [exact Hl | split; [exact Hn | lia]].
Qed.

(** X16.  Around a grid property only a value error is caught.  When the
    property reader raises another error, a lookup error for one, for a
    property the loop has reached, [_export_collection] raises that error
    there: the properties after it and the table are not exported and no
    count is logged. *)
Theorem export_collection_property_error
  project collection parent job_name config_path
  w lg config w1 exd w2 c1 s1 pre p post c2 w3 lg3 e w4 :
  yaml_load config_path w = (XOk config, w1) ->
  new_ExportData config parent w1 = (XOk exd, w2) ->
  export_maps' project collection job_name exd 0 (w2, lg) = (XOk c1, s1) ->
  properties collection = (pre ++ p :: post)%list ->
  xfor_each pre (property_step' project parent job_name exd) c1 s1 =
    (XOk c2, (w3, lg3)) ->
  gridproperty_from_roxar project parent p w3 = (XRaise e, w4) ->
  e <> ValueError ->
  export_collection' project collection parent job_name config_path (w, lg) =
    (XRaise e,
     (w4, (lg3 ++ [Entry DEBUG "Will be exporting %s for %s"
                     [p; PStr parent]])%list)).
Proof.
  intros Hy Hx Hm Hsplit Hpre Hp He.
  unfold _export_collection.
  rewrite (xbind_run _ _ _ _ _ (call_run _ _ lg _ _ Hy)).
  rewrite (xbind_run _ _ _ _ _ (call_run _ _ lg _ _ Hx)).
  rewrite (xbind_run _ _ _ _ _ Hm).
  apply xbind_run_raise.
  unfold export_properties. rewrite Hsplit, xfor_each_app.
  rewrite (xbind_run _ _ _ _ _ Hpre). simpl xfor_each.
  apply xbind_run_raise.
  unfold property_step, xbind, xtry, call, log. simpl. rewrite Hp.
  destruct e as [e0 | | name]; simpl; try reflexivity.
  contradiction He. reflexivity.
Qed.

Lemma export_maps_no_folder project collection job_name exd count s :
  py_iter (map_subfolders collection) = Ok [] ->
  export_maps' project collection job_name exd count s = (XOk count, s).
Proof.
  intros Hf. unfold export_maps.
  induction (maps collection) as [| m ms IH]; simpl.
  - reflexivity.
  - assert (Hstep :
              xbind (of_result (py_iter (map_subfolders collection)))
                (fun folders =>
                   xfor_each folders
                     (surface_step' project collection job_name exd m)
                     count) s = (XOk count, s)).
    { unfold xbind, of_result. rewrite Hf. reflexivity. }
    rewrite (xbind_run _ _ _ _ _ Hstep). exact IH.
Qed.

(** X17.  Maps are exported per zone folder.  With no zone folder in the
    plan no surface is read or exported, whatever [maps] lists: the run is
    the run of the same plan without maps. *)
Theorem export_collection_no_folder
  project collection parent job_name config_path s :
  py_iter (map_subfolders collection) = Ok [] ->
  export_collection' project collection parent job_name config_path s =
  export_collection' project
    {| maps := [];
       properties := properties collection;
       map_location := map_location collection;
       map_subfolders := map_subfolders collection;
       table := table collection |}
    parent job_name config_path s.
Proof.
  intros Hf. unfold _export_collection, xbind.
  destruct (call (yaml_load config_path) s) as [[config | e] s1];
    [| reflexivity].
  destruct (call (new_ExportData config parent) s1) as [[exd | e] s2];
    [| reflexivity].
  rewrite (export_maps_no_folder project collection job_name exd 0 s2 Hf).
  reflexivity.
Qed.

(** X18.  What the closing [try] does once the loops have returned with
    the count [c2]: a plan without the [table] key (as [_define_output]
    returns it) and a plan whose table export raises a lookup error both
    end in the warning [No volume table attached]; a plan whose table is
    [None] ends in the warning [No volumes exported, ...]; in all three
    the run returns and logs the count [c2] of the loops. *)
Theorem export_collection_table_cases
  project collection parent job_name config_path
  w lg config w1 exd w2 c1 s1 c2 w3 lg3 :
  yaml_load config_path w = (XOk config, w1) ->
  new_ExportData config parent w1 = (XOk exd, w2) ->
  export_maps' project collection job_name exd 0 (w2, lg) = (XOk c1, s1) ->
  export_properties' project collection parent job_name exd c1 s1 =
    (XOk c2, (w3, lg3)) ->
  (table collection = None ->
   export_collection' project collection parent job_name config_path
     (w, lg) =
   (XOk tt,
    (w3, (lg3 ++ [Entry WARNING "No volume table attached" []]
              ++ [Entry INFO "Exported %i objects" [PInt c2]])%list))) /\
  (table collection = Some None ->
   export_collection' project collection parent job_name config_path
     (w, lg) =
   (XOk tt,
    (w3, (lg3 ++ [no_volumes_exported]
              ++ [Entry INFO "Exported %i objects" [PInt c2]])%list))) /\
  (forall volumes w4,
      table collection = Some (Some volumes) ->
      export exd (ETable volumes) (Some parent) (PStr "volumes") job_name
        "volumetrics" w3 = (XRaise (Py KeyError), w4) ->
      export_collection' project collection parent job_name config_path
        (w, lg) =
      (XOk tt,
       (w4, (lg3 ++ [Entry WARNING "No volume table attached" []]
                 ++ [Entry INFO "Exported %i objects" [PInt c2]])%list))).
Proof.
  intros Hy Hx Hm Hp.
  assert (Hrun : forall c3 s3,
             export_table' collection parent job_name exd c2 (w3, lg3) =
               (XOk c3, s3) ->
             export_collection' project collection parent job_name
               config_path (w, lg) =
             log INFO "Exported %i objects" [PInt c3] s3).
  { intros c3 s3 Ht. unfold _export_collection.
    rewrite (xbind_run _ _ _ _ _ (call_run _ _ lg _ _ Hy)).
    rewrite (xbind_run _ _ _ _ _ (call_run _ _ lg _ _ Hx)).
    rewrite (xbind_run _ _ _ _ _ Hm), (xbind_run _ _ _ _ _ Hp).
    rewrite (xbind_run _ _ _ _ _ Ht). reflexivity. }
  split; [| split].
  - intros Ht. erewrite Hrun.
    2:{ unfold export_table, xtry, xraise, xbind, log, xret. rewrite Ht.
        simpl. reflexivity. }
    unfold log. simpl. rewrite <- app_assoc. reflexivity.
  - intros Ht. erewrite Hrun.
    2:{ unfold export_table, xtry, xraise, xbind, log, xret. rewrite Ht.
        simpl. reflexivity. }
    unfold log. simpl. rewrite <- app_assoc. reflexivity.
  - intros volumes w4 Ht He. erewrite Hrun.
    2:{ unfold export_table, xtry, xraise, xbind, call, log, xret.
        rewrite Ht. simpl. rewrite He. simpl. reflexivity. }
    unfold log. simpl. rewrite <- app_assoc. reflexivity.
Qed.

(** Runs of the loops when nothing the plan names is there. *)
Lemma surface_step_missing project collection job_name exd map_name f
  count w lg w1 :
  surface_from_roxar project map_name
    ("Volumetrics_" ++ job_name ++ "/" ++ py_format py_repr f)
    (map_location collection) w = (XRaise (Py KeyError), w1) ->
  surface_step' project collection job_name exd map_name f count (w, lg) =
  (XOk count,
   (w1,
    (lg ++ [Entry DEBUG "Fetching surface with name: %s, folder: %s"
              [map_name;
               PStr ("Volumetrics_" ++ job_name ++ "/"
                       ++ py_format py_repr f)];
            Entry WARNING "No surface called %s" [map_name]])%list)).
Proof.
  intros H. unfold surface_step, xbind, xtry, call, log, xret.
  cbn [fst snd]. rewrite H. cbn [xexn_eqb exn_eqb fst snd].
  rewrite <- app_assoc. reflexivity.
Qed.

Lemma surfaces_missing project collection job_name exd map_name :
  (forall name folder stype w,
      exists w', surface_from_roxar project name folder stype w =
                 (XRaise (Py KeyError), w')) ->
  forall folders count w lg,
  exists w' delta,
    xfor_each folders
      (surface_step' project collection job_name exd map_name) count (w, lg) =
      (XOk count, (w', (lg ++ delta)%list)) /\
    exports_in delta = 0%nat /\
    warnings_in delta = List.length folders.
Proof.
  intros Hmiss. induction folders as [| f folders IH]; intros count w lg.
  - exists w, []. simpl. rewrite app_nil_r. repeat split.
  - destruct (Hmiss map_name
                ("Volumetrics_" ++ job_name ++ "/" ++ py_format py_repr f)
                (map_location collection) w) as [w1 H1].
    pose proof (surface_step_missing project collection job_name exd
                  map_name f count w lg w1 H1) as Hstep.
    match type of Hstep with
    | _ = (_, (_, (_ ++ ?d)%list)) =>
        destruct (IH count w1 (lg ++ d)%list)
          as [w' [delta [Hrun [He Hw]]]];
        exists w', (d ++ delta)%list
    end.
    split; [| split].
    + cbn [xfor_each]. rewrite (xbind_run _ _ _ _ _ Hstep), Hrun.
      rewrite <- app_assoc. reflexivity.
    + rewrite exports_in_app, He. reflexivity.
    + rewrite warnings_in_app, Hw. reflexivity.
Qed.

Lemma maps_missing project collection job_name exd folders :
  (forall name folder stype w,
      exists w', surface_from_roxar project name folder stype w =
                 (XRaise (Py KeyError), w')) ->
  py_iter (map_subfolders collection) = Ok folders ->
  forall ms count w lg,
  exists w' delta,
    xfor_each ms
      (fun map_name count =>
         xbind (of_result (py_iter (map_subfolders collection)))
           (fun folders =>
              xfor_each folders
                (surface_step' project collection job_name exd map_name)
                count))
      count (w, lg) =
      (XOk count, (w', (lg ++ delta)%list)) /\
    exports_in delta = 0%nat /\
    warnings_in delta = (List.length ms * List.length folders)%nat.
Proof.
  intros Hmiss Hf. induction ms as [| m ms IH]; intros count w lg.
  - exists w, []. simpl. rewrite app_nil_r. repeat split.
  - destruct (surfaces_missing project collection job_name exd m Hmiss
                folders count w lg) as [w1 [d1 [H1 [He1 Hw1]]]].
    destruct (IH count w1 (lg ++ d1)%list) as [w' [d2 [H2 [He2 Hw2]]]].
    exists w', (d1 ++ d2)%list. split; [| split].
    + assert (Hstep :
                xbind (of_result (py_iter (map_subfolders collection)))
                  (fun folders =>
                     xfor_each folders
                       (surface_step' project collection job_name exd m)
                       count) (w, lg) =
                (XOk count, (w1, (lg ++ d1)%list))).
      { unfold xbind at 1. unfold of_result. rewrite Hf. exact H1. }
      cbn [xfor_each]. rewrite (xbind_run _ _ _ _ _ Hstep), H2, app_assoc.
      reflexivity.
    + rewrite exports_in_app. lia.
    + rewrite warnings_in_app. simpl. lia.
Qed.

Lemma property_step_missing project parent job_name exd p count w lg w1 :
  gridproperty_from_roxar project parent p w = (XRaise ValueError, w1) ->
  property_step' project parent job_name exd p count (w, lg) =
  (XOk count,
   (w1,
    (lg ++ [Entry DEBUG "Will be exporting %s for %s" [p; PStr parent];
            Entry WARNING "No parameter called %s" [p]])%list)).
Proof.
  intros H. unfold property_step, xbind, xtry, call, log, xret.
  cbn [fst snd]. rewrite H. cbn [xexn_eqb fst snd].
  rewrite <- app_assoc. reflexivity.
Qed.

Lemma properties_missing project parent job_name exd :
  (forall name w,
      exists w', gridproperty_from_roxar project parent name w =
                 (XRaise ValueError, w')) ->
  forall ps count w lg,
  exists w' delta,
    xfor_each ps (property_step' project parent job_name exd) count (w, lg) =
      (XOk count, (w', (lg ++ delta)%list)) /\
    exports_in delta = 0%nat /\
    warnings_in delta = List.length ps.
Proof.
  intros Hmiss. induction ps as [| p ps IH]; intros count w lg.
  - exists w, []. simpl. rewrite app_nil_r. repeat split.
  - destruct (Hmiss p w) as [w1 H1].
    pose proof (property_step_missing project parent job_name exd p count
                  w lg w1 H1) as Hstep.
    match type of Hstep with
    | _ = (_, (_, (_ ++ ?d)%list)) =>
        destruct (IH count w1 (lg ++ d)%list)
          as [w' [delta [Hrun [He Hw]]]];
        exists w', (d ++ delta)%list
    end.
    split; [| split].
    + cbn [xfor_each]. rewrite (xbind_run _ _ _ _ _ Hstep), Hrun.
      rewrite <- app_assoc. reflexivity.
    + rewrite exports_in_app, He. reflexivity.
    + rewrite warnings_in_app, Hw. reflexivity.
Qed.

(** X19.  Absence is not fatal.  When the project has none of the
    surfaces (the reader answers every request with a lookup error) and
    none of the grid properties (a value error) and the plan's table is
    [None], [_export_collection] returns: it logs one warning for each
    item of the plan and the count 0. *)
Theorem export_collection_all_missing
  project collection parent job_name config_path
  w lg config w1 exd w2 folders :
  yaml_load config_path w = (XOk config, w1) ->
  new_ExportData config parent w1 = (XOk exd, w2) ->
  (forall name folder stype w0,
      exists w', surface_from_roxar project name folder stype w0 =
                 (XRaise (Py KeyError), w')) ->
  (forall name w0,
      exists w', gridproperty_from_roxar project parent name w0 =
                 (XRaise ValueError, w')) ->
  py_iter (map_subfolders collection) = Ok folders ->
  table collection = Some None ->
  exists w' delta,
    export_collection' project collection parent job_name config_path
      (w, lg) =
      (XOk tt,
       (w', (lg ++ delta ++ [Entry INFO "Exported %i objects" [PInt 0]])
              %list)) /\
    exports_in delta = 0%nat /\
    warnings_in delta =
      (List.length (maps collection) * List.length folders +
       List.length (properties collection) + 1)%nat.
Proof.
  intros Hy Hx Hs Hg Hf Ht.
  destruct (maps_missing project collection job_name exd folders Hs Hf
              (maps collection) 0 w2 lg) as [w3 [d1 [H1 [He1 Hw1]]]].
  destruct (properties_missing project parent job_name exd Hg
              (properties collection) 0 w3 (lg ++ d1)%list)
    as [w4 [d2 [H2 [He2 Hw2]]]].
  exists w4, (d1 ++ d2 ++ [no_volumes_exported])%list. split; [| split].
  - unfold _export_collection.
    rewrite (xbind_run _ _ _ _ _ (call_run _ _ lg _ _ Hy)).
    rewrite (xbind_run _ _ _ _ _ (call_run _ _ lg _ _ Hx)).
    unfold export_maps. rewrite (xbind_run _ _ _ _ _ H1).
    unfold export_properties. rewrite (xbind_run _ _ _ _ _ H2).
    unfold xbind at 1.
    unfold export_table, xtry, xbind, log, xret. rewrite Ht. simpl.
    rewrite <- !app_assoc. reflexivity.
  - rewrite !exports_in_app, He1, He2. reflexivity.
  - rewrite !warnings_in_app, Hw1, Hw2.
    change (warnings_in [no_volumes_exported]) with 1%nat. lia.
Qed.

End ExporterFacts.

Lemma export_collection_accounts_witness :
  exists delta,
    snd (snd Exporter.sample_run) =
      ([] ++ delta ++
       [Exporter.Entry Exporter.INFO "Exported %i objects"
          [PInt (Z.of_nat (Exporter.exports_in delta))]])%list /\
    (Exporter.exports_in delta + Exporter.warnings_in delta =
     List.length (maps Exporter.sample_plan) *
     List.length (group_entries (map_subfolders Exporter.sample_plan)) +
     List.length (properties Exporter.sample_plan) + 1)%nat /\
    (Exporter.exports_in delta <=
     Exporter.plan_items Exporter.sample_plan)%nat.
Proof.
  refine (export_collection_accounts
            Exporter.sample_yaml_load Exporter.sample_ExportData
            Exporter.sample_surface Exporter.sample_gridproperty
            Exporter.sample_export Exporter.sample_repr
            example_project Exporter.sample_plan "Grid" "Volumes"
            Exporter.default_config_path [] []
            (fst (snd Exporter.sample_run)) (snd (snd Exporter.sample_run))
            _).
  vm_compute. reflexivity.
Defined.

Lemma export_collection_property_error_witness :
  exists s,
    Exporter.sample_export_collection example_project Exporter.perm_plan
      "Grid" "Volumes" Exporter.default_config_path ([], []) =
    (Exporter.XRaise (Exporter.Py KeyError), s).
Proof.
  eexists.
  eapply (export_collection_property_error
            Exporter.sample_yaml_load Exporter.sample_ExportData
            Exporter.sample_surface Exporter.sample_gridproperty
            Exporter.sample_export Exporter.sample_repr
            example_project Exporter.perm_plan "Grid" "Volumes"
            Exporter.default_config_path [] [] tt [] tt [] 0 ([], [])
            [PStr "Oil_stoiip"] (PStr "PERM") [PStr "PORO"]).
  - reflexivity.
  - reflexivity.
  - reflexivity.
  - reflexivity.
  - reflexivity.
  - reflexivity.
  - discriminate.
Defined.

Lemma export_collection_no_folder_witness :
  Exporter.sample_export_collection example_project Exporter.no_folder_plan
    "Grid" "Volumes" Exporter.default_config_path ([], []) =
  Exporter.sample_export_collection example_project
    {| maps := [];
       properties := properties Exporter.no_folder_plan;
       map_location := map_location Exporter.no_folder_plan;
       map_subfolders := map_subfolders Exporter.no_folder_plan;
       table := table Exporter.no_folder_plan |}
    "Grid" "Volumes" Exporter.default_config_path ([], []).
Proof.
  apply (export_collection_no_folder
           Exporter.sample_yaml_load Exporter.sample_ExportData
           Exporter.sample_surface Exporter.sample_gridproperty
           Exporter.sample_export Exporter.sample_repr
           example_project Exporter.no_folder_plan "Grid" "Volumes"
           Exporter.default_config_path ([], [])).
  reflexivity.
Defined.

Lemma export_collection_table_cases_witness :
  Exporter.sample_export_collection example_project
    Exporter.table_only_plan "Grid" "Volumes"
    Exporter.default_config_path ([], []) =
  (Exporter.XOk tt,
   ([], ([] ++ [Exporter.no_volumes_exported]
            ++ [Exporter.Entry Exporter.INFO "Exported %i objects"
                  [PInt 0]])%list)).
Proof.
  apply (proj1 (proj2 (export_collection_table_cases
           Exporter.sample_yaml_load Exporter.sample_ExportData
           Exporter.sample_surface Exporter.sample_gridproperty
           Exporter.sample_export Exporter.sample_repr
           example_project Exporter.table_only_plan "Grid" "Volumes"
           Exporter.default_config_path [] [] tt [] tt [] 0 ([], []) 0 [] []
           eq_refl eq_refl eq_refl eq_refl))).
  reflexivity.
Defined.

Lemma export_collection_all_missing_witness :
  exists w' delta,
    @Exporter._export_collection (list string) unit unit string string
      Exporter.sample_yaml_load Exporter.sample_ExportData
      Exporter.missing_surface Exporter.missing_gridproperty
      Exporter.sample_export Exporter.sample_repr
      example_project Exporter.sample_plan "Grid" "Volumes"
      Exporter.default_config_path ([], []) =
      (Exporter.XOk tt,
       (w', ([] ++ delta ++
             [Exporter.Entry Exporter.INFO "Exported %i objects" [PInt 0]])
              %list)) /\
    Exporter.exports_in delta = 0%nat /\
    Exporter.warnings_in delta = (2 * 2 + 3 + 1)%nat.
Proof.
  apply (export_collection_all_missing
           Exporter.sample_yaml_load Exporter.sample_ExportData
           Exporter.missing_surface Exporter.missing_gridproperty
           Exporter.sample_export Exporter.sample_repr
           example_project Exporter.sample_plan "Grid" "Volumes"
           Exporter.default_config_path [] [] tt [] tt []
           [PStr "Upper"; PStr "Lower"]); try reflexivity.
  - intros name folder stype w0. eexists. reflexivity.
  - intros name w0. eexists. reflexivity.
Defined.

Section ExportAfterConstruction.
Import Exporter.
Context {World Config ExportData Surface GridProperty : Type}.
Context (yaml_load : string -> host World Config).
Context (new_ExportData : Config -> string -> host World ExportData).
Context (surface_from_roxar :
           Project -> pyval -> string -> pyval -> host World Surface).
Context (gridproperty_from_roxar :
           Project -> string -> pyval -> host World GridProperty).
Context (export :
           ExportData -> exported Surface GridProperty -> option string ->
           pyval -> string -> string -> host World string).
Context (py_repr : pyval -> string).

Local Notation export_object' :=
  (export_object yaml_load new_ExportData surface_from_roxar
     gridproperty_from_roxar export py_repr).

(** X20.  From construction to export.  When [__post_init__] has built
    an object whose volumetrics table is missing ([report] is [None]),
    [export] on that object does not fail on the table: once the loops
    over the maps and the properties have returned, it logs
    [No volumes exported, ...], not [No volume table attached], then the
    count of the loops, and returns. *)
Theorem export_after_missing_table
  (get_job_arguments : list string -> string -> string -> M pyval)
  (_get_project : pyval -> bool -> M Project)
  project grid_name job_name lg0 obj lg0'
  w lg config w1 exd w2 c1 s1 c2 w3 lg3 :
  RmsInplaceVolumes.__post_init__ get_job_arguments _get_project
    project grid_name job_name lg0 = (Ok obj, lg0') ->
  RmsInplaceVolumes.report obj = None ->
  yaml_load default_config_path w = (XOk config, w1) ->
  new_ExportData config grid_name w1 = (XOk exd, w2) ->
  export_maps surface_from_roxar export py_repr
    (RmsInplaceVolumes.project obj) (RmsInplaceVolumes.report_output obj)
    job_name exd 0 (w2, lg) = (XOk c1, s1) ->
  export_properties gridproperty_from_roxar export
    (RmsInplaceVolumes.project obj) (RmsInplaceVolumes.report_output obj)
    grid_name job_name exd c1 s1 = (XOk c2, (w3, lg3)) ->
  export_object' obj (w, lg) =
  (XOk tt,
   (w3,
    (lg3 ++ [Entry WARNING
               "No volumes exported, have you forgot to select table option?"
               []]
         ++ [Entry INFO "Exported %i objects" [PInt c2]])%list)).
Proof.
  intros Hinit Hnone Hy Hx Hm Hp.
  destruct (post_init_inv _ _ _ _ _ _ _ _ Hinit)
    as [l1 [l2 [l3 [l4 [l5 [rp [plan [additional
         [_ [_ [_ [_ [_ [_ [_ [Hplan [Hgrid Hjob]]]]]]]]]]]]]]]]].
  unfold export_object, _export_collection. rewrite Hgrid, Hjob.
  rewrite (xbind_run _ _ _ _ _ (call_run _ _ lg _ _ Hy)).
  rewrite (xbind_run _ _ _ _ _ (call_run _ _ lg _ _ Hx)).
  rewrite (xbind_run _ _ _ _ _ Hm), (xbind_run _ _ _ _ _ Hp).
  unfold export_table, xtry, xbind, log, xret.
  rewrite Hplan. cbn [table]. rewrite Hnone. cbn [fst snd].
  rewrite <- app_assoc. reflexivity.
Qed.

End ExportAfterConstruction.

Lemma export_after_missing_table_witness :
  exists w3 lg3 c2,
    @Exporter.export_object (list string) unit unit string string
      Exporter.sample_yaml_load Exporter.sample_ExportData
      Exporter.missing_surface Exporter.missing_gridproperty
      Exporter.sample_export Exporter.sample_repr
      missing_table_object ([], []) =
    (Exporter.XOk tt,
     (w3,
      (lg3 ++ [Exporter.Entry Exporter.WARNING
                 "No volumes exported, have you forgot to select table option?"
                 []]
           ++ [Exporter.Entry Exporter.INFO "Exported %i objects" [PInt c2]])
        %list)).
Proof.
  eexists _, _, _.
  eapply (export_after_missing_table
            Exporter.sample_yaml_load Exporter.sample_ExportData
            Exporter.missing_surface Exporter.missing_gridproperty
            Exporter.sample_export Exporter.sample_repr
            (host_arguments missing_table_params)
            (host_project example_project) (PStr "project") "Grid" "Volumes"
            [] missing_table_object [no_table; no_selector "Region"]
            [] [] tt [] tt []).
  - reflexivity.
  - reflexivity.
  - reflexivity.
  - reflexivity.
  - reflexivity.
  - reflexivity.
Defined.
